(** * iRMC virtual media boot driver: a shallow embedding

    Source: [ironic/drivers/modules/irmc/boot.py].

    The driver stages image files on a network share and asks the iRMC
    controller to attach them as virtual CD and floppy.  Every function of
    the module is embedded as a computation in a state-and-exception monad
    over a [World]: the node object held by the task, the node store, the
    share's file system, the controller's attachment state and the log of
    the calls made to the outside. *)

From stdpp Require Import gmap strings list fin_maps.

(** ** Python values held by the node's dictionaries *)

Inductive Val :=
  | VNone
  | VBool (b : bool)
  | VStr (s : string).

#[global] Instance Val_eq_dec : EqDecision Val.
Proof. solve_decision. Defined.

(** Python truth value of an object. *)
Definition truthy (v : Val) : bool :=
  match v with
  | VNone => false
  | VBool b => b
  | VStr s => negb (String.eqb s "")
  end.

(** [d.get(k)]: a missing key reads as [None]. *)
Definition dict_get (d : gmap string Val) (k : string) : Val :=
  default VNone (d !! k).

(** [d.update(e)]: the keys of [e] win. *)
Definition dict_update (d e : gmap string Val) : gmap string Val := e ∪ d.

(** [d.pop(k, None)]. *)
Definition dict_pop (k : string) (d : gmap string Val) : gmap string Val :=
  delete k d.

(** Python truth value of a dictionary: it is false when empty. *)
Definition dict_truthy (d : gmap string Val) : bool :=
  negb (bool_decide (d = ∅)).

(** ** [os.path.join] on two components (posixpath) *)

Definition startswith_sep (s : string) : bool := String.prefix "/" s.

Fixpoint endswith_sep (s : string) : bool :=
  match s with
  | EmptyString => false
  | String c EmptyString => String.eqb (String c EmptyString) "/"
  | String _ rest => endswith_sep rest
  end.

Definition os_path_join (a b : string) : string :=
  if startswith_sep b then b
  else if String.eqb a "" || endswith_sep a then a +:+ b
  else a +:+ "/" +:+ b.

(** ** Configuration, node and task *)

Record Conf := {
  remote_image_share_root : string;
  remote_image_share_name : string;
  remote_image_server : string;
  remote_image_user_domain : string;
  remote_image_share_type : string;
  remote_image_user_name : string;
  remote_image_user_password : string;
  pxe_append_params : string
}.

(** Modelled from the spec: [ironic.common.states] is not part of the
    sources at hand; the provisioning phase is the enumeration of the data
    model (Deploying, Cleaning, Active, anything else). *)
Inductive ProvisionState :=
  | DEPLOYING
  | CLEANING
  | ACTIVE
  | OTHER_STATE (name : string).

#[global] Instance ProvisionState_eq_dec : EqDecision ProvisionState.
Proof. solve_decision. Defined.

(** [ironic.common.boot_devices]. *)
Inductive BootDevice := CDROM | DISK.

#[global] Instance BootDevice_eq_dec : EqDecision BootDevice.
Proof. solve_decision. Defined.

Record Node := {
  uuid : string;
  provision_state : ProvisionState;
  driver_info : gmap string Val;
  instance_info : gmap string Val;
  driver_internal_info : gmap string Val
}.

Definition set_driver_internal_info (n : Node) (d : gmap string Val) : Node :=
  {| uuid := uuid n;
     provision_state := provision_state n;
     driver_info := driver_info n;
     instance_info := instance_info n;
     driver_internal_info := d |}.

(** ** Exceptions *)

Inductive Exn :=
  | IRMCOperationError (operation : string)
  | IRMCSharedFileSystemNotMounted (share : string)
  | InvalidParameterValue (msg : string)
  | MissingParameterValue (msg : string)
  | ImageCreationFailed
  | KeyError (key : string)
  | TypeError
  | SCCIClientError           (* scci.SCCIClientError *)
  | IOError                   (* raised by shutil.copyfile *)
  | OSError (enoent : bool)   (* raised by os.unlink; errno == ENOENT? *)
  | CollaboratorError (callee : string).

#[global] Instance Exn_eq_dec : EqDecision Exn.
Proof. solve_decision. Defined.

(** ** Image naming *)

Definition _get_deploy_iso_name (node : Node) : string :=
  "deploy-" +:+ uuid node +:+ ".iso".

Definition _get_boot_iso_name (node : Node) : string :=
  "boot-" +:+ uuid node +:+ ".iso".

Definition _get_floppy_image_name (node : Node) : string :=
  "image-" +:+ uuid node +:+ ".img".

(** ** Collaborators outside the module *)

(** Modelled from the spec: the helpers of [service_utils], [deploy_utils],
    [images] and [irmc_common] that the driver calls are not part of the
    sources at hand; the pure ones are taken as parameters, with the
    interface of the spec's section on external collaborators. *)
Record Externals := {
  (* service_utils.is_image_href_ordinary_file_name(href) *)
  is_image_href_ordinary_file_name : Val → bool;
  (* service_utils.is_glance_image(href) *)
  is_glance_image : Val → bool;
  (* deploy_utils.get_image_instance_info(node) *)
  get_image_instance_info : Node → Exn + gmap string Val;
  (* deploy_utils.get_boot_option(node) *)
  get_boot_option : Node → string;
  (* deploy_utils.get_boot_mode_for_deploy(node) *)
  get_boot_mode_for_deploy : Node → Val;
  (* deploy_utils.get_single_nic_with_vif_port_id(task) *)
  get_single_nic_with_vif_port_id : Node → Val;
  (* the answer of images.get_image_properties(context, href, props) *)
  image_properties : Val → gmap string Val;
  (* irmc_common.get_irmc_client(node): the exception it raises, if any,
     while building the client from the node's driver_info *)
  irmc_client_failure : gmap string Val → option Exn
}.

Record Env := {
  CONF : Conf;
  EXT : Externals
}.

(** Commands handed to the client of [scciclient.irmc.scci]. *)
Inductive ScciCmd :=
  | UNMOUNT_CD
  | UNMOUNT_FD
  | MOUNT_CD
  | MOUNT_FD
  | virtual_cd_set_params
      (server user_domain share_type share_name : string) (filename : Val)
      (user_name user_password : string)
  | virtual_fd_set_params
      (server user_domain share_type share_name : string) (filename : string)
      (user_name user_password : string).

#[global] Instance ScciCmd_eq_dec : EqDecision ScciCmd.
Proof. solve_decision. Defined.

(** Calls that leave the process: controller, image service, share and
    node store.  The log of a run is the list of the calls it attempted. *)
Inductive Event :=
  | EvScci (cmd : ScciCmd)
  | EvFetch (href : Val) (dest : string)
  | EvGetImageProperties (href : Val)
  | EvCreateBootIso (dest : string) (kernel ramdisk : Val)
      (deploy_iso : string) (root_uuid : Val) (kernel_params : string)
      (boot_mode : Val)
  | EvCreateVfatImage (parameters : gmap string Val)
  | EvCopyFile (dest : string)
  | EvUnlink (path : string)
  | EvNodeSave (saved : Node)
  | EvSetBootDevice (device : BootDevice) (persistent : bool)
  | EvValidateImageProperties (props : list string).

(** The share as seen from the conductor host. *)
Record Share := {
  files : gset string;
  dirs : gset string;
  mounts : gset string
}.

(** The virtual media state held by the controller. *)
Record Controller := {
  cd_image : option Val;
  cd_inserted : bool;
  fd_image : option string;
  fd_inserted : bool;
  boot_device : option (BootDevice * bool)
}.

Record World := {
  node : Node;            (* task.node, the object in memory *)
  stored : Node;          (* the node as last written by node.save() *)
  share : Share;
  irmc : Controller;
  trace : list Event;
  faults : nat → bool     (* faults i: the i-th call of the log fails *)
}.

Definition with_node (f : Node → Node) (w : World) : World :=
  {| node := f (node w); stored := stored w; share := share w;
     irmc := irmc w; trace := trace w; faults := faults w |}.

Definition with_stored (n : Node) (w : World) : World :=
  {| node := node w; stored := n; share := share w;
     irmc := irmc w; trace := trace w; faults := faults w |}.

Definition with_share (f : Share → Share) (w : World) : World :=
  {| node := node w; stored := stored w; share := f (share w);
     irmc := irmc w; trace := trace w; faults := faults w |}.

Definition with_irmc (f : Controller → Controller) (w : World) : World :=
  {| node := node w; stored := stored w; share := share w;
     irmc := f (irmc w); trace := trace w; faults := faults w |}.

Definition with_trace (t : list Event) (w : World) : World :=
  {| node := node w; stored := stored w; share := share w;
     irmc := irmc w; trace := t; faults := faults w |}.

Definition add_file (p : string) (s : Share) : Share :=
  {| files := {[p]} ∪ files s; dirs := dirs s; mounts := mounts s |}.

Definition del_file (p : string) (s : Share) : Share :=
  {| files := files s ∖ {[p]}; dirs := dirs s; mounts := mounts s |}.

(** Effect of an accepted SCCI command on the controller. *)
Definition scci_effect (cmd : ScciCmd) (c : Controller) : Controller :=
  match cmd with
  | UNMOUNT_CD =>
      {| cd_image := cd_image c; cd_inserted := false;
         fd_image := fd_image c; fd_inserted := fd_inserted c;
         boot_device := boot_device c |}
  | UNMOUNT_FD =>
      {| cd_image := cd_image c; cd_inserted := cd_inserted c;
         fd_image := fd_image c; fd_inserted := false;
         boot_device := boot_device c |}
  | MOUNT_CD =>
      {| cd_image := cd_image c; cd_inserted := true;
         fd_image := fd_image c; fd_inserted := fd_inserted c;
         boot_device := boot_device c |}
  | MOUNT_FD =>
      {| cd_image := cd_image c; cd_inserted := cd_inserted c;
         fd_image := fd_image c; fd_inserted := true;
         boot_device := boot_device c |}
  | virtual_cd_set_params _ _ _ _ f _ _ =>
      {| cd_image := Some f; cd_inserted := cd_inserted c;
         fd_image := fd_image c; fd_inserted := fd_inserted c;
         boot_device := boot_device c |}
  | virtual_fd_set_params _ _ _ _ f _ _ =>
      {| cd_image := cd_image c; cd_inserted := cd_inserted c;
         fd_image := Some f; fd_inserted := fd_inserted c;
         boot_device := boot_device c |}
  end.

Definition set_boot (d : BootDevice) (p : bool) (c : Controller) : Controller :=
  {| cd_image := cd_image c; cd_inserted := cd_inserted c;
     fd_image := fd_image c; fd_inserted := fd_inserted c;
     boot_device := Some (d, p) |}.

(** ** The monad: state over [World], exceptions in [Exn] *)

Inductive Res (A : Type) :=
  | Ok (a : A)
  | Raise (e : Exn).
Arguments Ok {A} a.
Arguments Raise {A} e.

Definition M (A : Type) : Type := World → Res A * World.

#[global] Instance M_ret : MRet M := λ A a w, (Ok a, w).

#[global] Instance M_bind : MBind M := λ A B f m w,
  match m w with
  | (Ok a, w') => f a w'
  | (Raise e, w') => (Raise e, w')
  end.

Definition raise {A} (e : Exn) : M A := λ w, (Raise e, w).

Definition gets {A} (f : World → A) : M A := λ w, (Ok (f w), w).

Definition modify (f : World → World) : M unit := λ w, (Ok tt, f w).

(** [try: body except ...: handler]; the handler picks the exceptions it
    catches. *)
Definition try_except {A} (body : M A) (handler : Exn → option (M A)) : M A :=
  λ w,
    match body w with
    | (Ok a, w') => (Ok a, w')
    | (Raise e, w') =>
        match handler e with
        | Some h => h w'
        | None => (Raise e, w')
        end
    end.

(** A call that leaves the process: it is appended to the log, and the
    fault schedule says whether the callee reports a failure. *)
Definition call (ev : Event) : M bool := λ w,
  (Ok (faults w (length (trace w))), with_trace (trace w ++ [ev]) w).

(** [d[k]] *)
Definition dict_item (d : gmap string Val) (k : string) : M Val :=
  match d !! k with
  | Some v => mret v
  | None => raise (KeyError k)
  end.

(** [os.path.join(root, v)] for a value read from a dictionary. *)
Definition path_join (root : string) (v : Val) : M string :=
  match v with
  | VStr s => mret (os_path_join root s)
  | _ => raise TypeError
  end.

(** ** Calls to the collaborators *)

(** [irmc_client(cmd)]: raises [SCCIClientError] when the controller
    refuses the command. *)
Definition irmc_client (cmd : ScciCmd) : M unit :=
  failed ← call (EvScci cmd);
  if failed : bool then raise SCCIClientError
  else modify (with_irmc (scci_effect cmd)).

(** [irmc_common.get_irmc_client(node)] *)
Definition get_irmc_client (E : Env) : M unit :=
  n ← gets node;
  match irmc_client_failure (EXT E) (driver_info n) with
  | Some e => raise e
  | None => mret tt
  end.

(** [images.fetch(context, href, path)] *)
Definition images_fetch (href : Val) (path : string) : M unit :=
  failed ← call (EvFetch href path);
  if failed : bool then raise (CollaboratorError "images.fetch")
  else modify (with_share (add_file path)).

(** [images.get_image_properties(context, href, props)] *)
Definition images_get_image_properties (E : Env) (href : Val)
    : M (gmap string Val) :=
  failed ← call (EvGetImageProperties href);
  if failed : bool then raise (CollaboratorError "images.get_image_properties")
  else mret (image_properties (EXT E) href).

(** [images.create_boot_iso(context, path, kernel, ramdisk, deploy_iso,
    root_uuid, kernel_params, boot_mode)] *)
Definition images_create_boot_iso (path : string) (kernel ramdisk : Val)
    (deploy_iso : string) (root_uuid : Val) (kernel_params : string)
    (boot_mode : Val) : M unit :=
  failed ← call (EvCreateBootIso path kernel ramdisk deploy_iso root_uuid
                   kernel_params boot_mode);
  if failed : bool then raise ImageCreationFailed
  else modify (with_share (add_file path)).

(** [images.create_vfat_image(tmpfile, parameters=params)]: the image is
    written to a temporary file of the conductor, not to the share. *)
Definition images_create_vfat_image (params : gmap string Val) : M unit :=
  failed ← call (EvCreateVfatImage params);
  if failed : bool then raise ImageCreationFailed else mret tt.

(** [shutil.copyfile(tmpfile, path)] *)
Definition shutil_copyfile (path : string) : M unit :=
  failed ← call (EvCopyFile path);
  if failed : bool then raise IOError
  else modify (with_share (add_file path)).

(** [os.unlink(path)] *)
Definition os_unlink (path : string) : M unit :=
  failed ← call (EvUnlink path);
  present ← gets (λ w, bool_decide (path ∈ files (share w)));
  if negb present then raise (OSError true)
  else if failed : bool then raise (OSError false)
  else modify (with_share (del_file path)).

(** Modelled from the spec: [ironic_lib.utils.unlink_without_raise] is not
    part of the sources at hand.  Best-effort delete: a missing file is not
    an error, any other failure of the removal is logged and swallowed. *)
Definition unlink_without_raise (path : string) : M unit :=
  try_except (os_unlink path)
    (λ e, match e with
          | OSError _ => Some (mret tt)
          | _ => None
          end).

(** [task.node.save()] *)
Definition node_save : M unit :=
  n ← gets node;
  failed ← call (EvNodeSave n);
  if failed : bool then raise (CollaboratorError "node.save")
  else modify (with_stored n).

(** Modelled from the spec: [manager_utils.node_set_boot_device] is not
    part of the sources at hand.  A call that does not pass [persistent]
    sets the device for one boot (non-persistent). *)
Definition node_set_boot_device_default_persistent : bool := false.

Definition node_set_boot_device (device : BootDevice) (persistent : bool)
    : M unit :=
  failed ← call (EvSetBootDevice device persistent);
  if failed : bool then raise (CollaboratorError "node_set_boot_device")
  else modify (with_irmc (set_boot device persistent)).

(** [deploy_utils.validate_image_properties(context, d_info, props)] *)
Definition validate_image_properties (props : list string) : M unit :=
  failed ← call (EvValidateImageProperties props);
  if failed : bool then raise (CollaboratorError "validate_image_properties")
  else mret tt.

(** Modelled from the spec: [deploy_utils.check_for_missing_params] is not
    part of the sources at hand.  It raises the missing-parameter error
    when a value of the dictionary is absent or empty. *)
Definition check_for_missing_params (info : gmap string Val)
    (error_msg : string) : M unit :=
  if bool_decide (map_Forall (λ _ v, truthy v = true) info) then mret tt
  else raise (MissingParameterValue error_msg).

(** [os.path.isdir], [os.path.ismount], [os.path.isfile] *)
Definition os_path_isdir (p : string) : M bool :=
  gets (λ w, bool_decide (p ∈ dirs (share w))).

Definition os_path_ismount (p : string) : M bool :=
  gets (λ w, bool_decide (p ∈ mounts (share w))).

Definition os_path_isfile (p : string) : M bool :=
  gets (λ w, bool_decide (p ∈ files (share w))).

Definition py_list_repr (l : list string) : string :=
  "[" +:+ String.concat ", " (map (λ s, "'" +:+ s +:+ "'") l) +:+ "]".

(** ** The driver *)

Definition _parse_config_option (E : Env) : M unit :=
  let root := remote_image_share_root (CONF E) in
  isdir ← os_path_isdir root;
  let error_msgs :=
    if isdir : bool then []
    else ["Value '" +:+ root +:+
          "' for remote_image_share_root isn't a directory or doesn't exist."] in
  if bool_decide (error_msgs = []) then mret tt
  else raise (InvalidParameterValue
                ("The following errors were encountered while parsing config file:"
                 +:+ py_list_repr error_msgs)).

Definition _parse_driver_info (E : Env) : M (gmap string Val) :=
  n ← gets node;
  let d_info := driver_info n in
  let deploy_info : gmap string Val :=
    {[ "irmc_deploy_iso" := dict_get d_info "irmc_deploy_iso" ]} in
  let error_msg :=
    "Error validating iRMC virtual media deploy. Some parameters were missing in node's driver_info" in
  check_for_missing_params deploy_info error_msg;;
  href ← dict_item deploy_info "irmc_deploy_iso";
  (if is_image_href_ordinary_file_name (EXT E) href then
     deploy_iso ← path_join (remote_image_share_root (CONF E)) href;
     isfile ← os_path_isfile deploy_iso;
     if isfile : bool then mret tt
     else raise (InvalidParameterValue
                   ("Deploy ISO file, " +:+ deploy_iso +:+
                    ", not found for node: " +:+ uuid n +:+ "."))
   else mret tt);;
  mret deploy_info.

Definition _parse_instance_info (E : Env) : M (gmap string Val) :=
  n ← gets node;
  let i_info := instance_info n in
  if truthy (dict_get i_info "irmc_boot_iso") then
    href ← dict_item i_info "irmc_boot_iso";
    let deploy_info : gmap string Val := {[ "irmc_boot_iso" := href ]} in
    (if is_image_href_ordinary_file_name (EXT E) href then
       boot_iso ← path_join (remote_image_share_root (CONF E)) href;
       isfile ← os_path_isfile boot_iso;
       if isfile : bool then mret tt
       else raise (InvalidParameterValue
                     ("Boot ISO file, " +:+ boot_iso +:+
                      ", not found for node: " +:+ uuid n +:+ "."))
     else mret tt);;
    mret deploy_info
  else mret ∅.

Definition _parse_deploy_info (E : Env) : M (gmap string Val) :=
  n ← gets node;
  let deploy_info : gmap string Val := ∅ in
  image_info ←
    match get_image_instance_info (EXT E) n with
    | inl e => raise e
    | inr d => mret d
    end;
  let deploy_info := dict_update deploy_info image_info in
  d_info ← _parse_driver_info E;
  let deploy_info := dict_update deploy_info d_info in
  i_info ← _parse_instance_info E;
  let deploy_info := dict_update deploy_info i_info in
  mret deploy_info.

Definition _attach_virtual_cd (E : Env) (bootable_iso_filename : Val) : M unit :=
  try_except
    (get_irmc_client E;;
     let cd_set_params :=
       virtual_cd_set_params
         (remote_image_server (CONF E))
         (remote_image_user_domain (CONF E))
         (remote_image_share_type (CONF E))
         (remote_image_share_name (CONF E))
         bootable_iso_filename
         (remote_image_user_name (CONF E))
         (remote_image_user_password (CONF E)) in
     irmc_client cd_set_params;;
     irmc_client MOUNT_CD)
    (λ e, match e with
          | SCCIClientError =>
              Some (raise (IRMCOperationError "Inserting virtual cdrom"))
          | _ => None
          end).

Definition _detach_virtual_cd (E : Env) : M unit :=
  try_except
    (get_irmc_client E;;
     irmc_client UNMOUNT_CD)
    (λ e, match e with
          | SCCIClientError =>
              Some (raise (IRMCOperationError "Ejecting virtual cdrom"))
          | _ => None
          end).

Definition _attach_virtual_fd (E : Env) (floppy_image_filename : string) : M unit :=
  try_except
    (get_irmc_client E;;
     let fd_set_params :=
       virtual_fd_set_params
         (remote_image_server (CONF E))
         (remote_image_user_domain (CONF E))
         (remote_image_share_type (CONF E))
         (remote_image_share_name (CONF E))
         floppy_image_filename
         (remote_image_user_name (CONF E))
         (remote_image_user_password (CONF E)) in
     irmc_client fd_set_params;;
     irmc_client MOUNT_FD)
    (λ e, match e with
          | SCCIClientError =>
              Some (raise (IRMCOperationError "Inserting virtual floppy"))
          | _ => None
          end).

Definition _detach_virtual_fd (E : Env) : M unit :=
  try_except
    (get_irmc_client E;;
     irmc_client UNMOUNT_FD)
    (λ e, match e with
          | SCCIClientError =>
              Some (raise (IRMCOperationError "Ejecting virtual floppy"))
          | _ => None
          end).

Definition _remove_share_file (E : Env) (share_filename : string) : M unit :=
  let share_fullpathname :=
    os_path_join (remote_image_share_name (CONF E)) share_filename in
  unlink_without_raise share_fullpathname.

Definition _prepare_floppy_image (E : Env) (params : gmap string Val) : M string :=
  n ← gets node;
  let floppy_filename := _get_floppy_image_name n in
  let floppy_fullpathname :=
    os_path_join (remote_image_share_root (CONF E)) floppy_filename in
  images_create_vfat_image params;;
  try_except (shutil_copyfile floppy_fullpathname)
    (λ e, match e with
          | IOError =>
              Some (raise (IRMCOperationError "Copying floppy image file"))
          | _ => None
          end);;
  mret floppy_filename.

Definition _setup_vmedia_for_boot (E : Env) (bootable_iso_filename : Val)
    (parameters : option (gmap string Val)) : M unit :=
  _detach_virtual_cd E;;
  _detach_virtual_fd E;;
  (* if parameters: the default None and the empty dictionary are false *)
  match parameters with
  | Some params =>
      if dict_truthy params then
        floppy_image_filename ← _prepare_floppy_image E params;
        _attach_virtual_fd E floppy_image_filename
      else mret tt
  | None => mret tt
  end;;
  _attach_virtual_cd E bootable_iso_filename.

Definition _cleanup_vmedia_boot (E : Env) : M unit :=
  _detach_virtual_cd E;;
  _detach_virtual_fd E;;
  n ← gets node;
  _remove_share_file E (_get_floppy_image_name n);;
  _remove_share_file E (_get_deploy_iso_name n).

Definition _setup_deploy_iso (E : Env) (ramdisk_options : gmap string Val)
    : M unit :=
  n ← gets node;
  let d_info := driver_info n in
  deploy_iso_href ← dict_item d_info "irmc_deploy_iso";
  deploy_iso_file ←
    (if is_image_href_ordinary_file_name (EXT E) deploy_iso_href then
       mret deploy_iso_href
     else
       let deploy_iso_file := _get_deploy_iso_name n in
       let deploy_iso_fullpathname :=
         os_path_join (remote_image_share_root (CONF E)) deploy_iso_file in
       images_fetch deploy_iso_href deploy_iso_fullpathname;;
       mret (VStr deploy_iso_file));
  _setup_vmedia_for_boot E deploy_iso_file (Some ramdisk_options);;
  node_set_boot_device CDROM node_set_boot_device_default_persistent.

(** [a or b] on two values, the second one computed on demand. *)
Definition py_or (a : Val) (b : M Val) : M Val :=
  if truthy a then mret a else b.

Definition _prepare_boot_iso (E : Env) (root_uuid : Val) : M unit :=
  deploy_info ← _parse_deploy_info E;
  n ← gets node;
  (* driver_internal_info aliases the node's dictionary: every store into
     it is a store into the node *)
  let store_boot_iso (v : Val) : M unit :=
    modify (with_node (λ n,
      set_driver_internal_info n (<["irmc_boot_iso" := v]> (driver_internal_info n)))) in
  (if truthy (dict_get deploy_info "irmc_boot_iso") then
     boot_iso_href ← dict_item deploy_info "irmc_boot_iso";
     if is_image_href_ordinary_file_name (EXT E) boot_iso_href then
       store_boot_iso boot_iso_href
     else
       let boot_iso_filename := _get_boot_iso_name n in
       let boot_iso_fullpathname :=
         os_path_join (remote_image_share_root (CONF E)) boot_iso_filename in
       images_fetch boot_iso_href boot_iso_fullpathname;;
       store_boot_iso (VStr boot_iso_filename)
   else
     image_href ← dict_item deploy_info "image_source";
     image_properties ← images_get_image_properties E image_href;
     kernel_href ← py_or (dict_get (instance_info n) "kernel")
                         (dict_item image_properties "kernel_id");
     ramdisk_href ← py_or (dict_get (instance_info n) "ramdisk")
                          (dict_item image_properties "ramdisk_id");
     let deploy_iso_filename := _get_deploy_iso_name n in
     let deploy_iso :=
       "file://" +:+ os_path_join (remote_image_share_root (CONF E))
                                  deploy_iso_filename in
     let boot_mode := get_boot_mode_for_deploy (EXT E) n in
     let kernel_params := pxe_append_params (CONF E) in
     let boot_iso_filename := _get_boot_iso_name n in
     let boot_iso_fullpathname :=
       os_path_join (remote_image_share_root (CONF E)) boot_iso_filename in
     images_create_boot_iso boot_iso_fullpathname kernel_href ramdisk_href
       deploy_iso root_uuid kernel_params boot_mode;;
     store_boot_iso (VStr boot_iso_filename));;
  (* task.node.driver_internal_info = driver_internal_info *)
  modify (with_node (λ n, set_driver_internal_info n (driver_internal_info n)));;
  node_save.

Definition attach_boot_iso_if_needed (E : Env) : M unit :=
  n ← gets node;
  let d_info := driver_internal_info n in
  let node_state := provision_state n in
  if bool_decide (is_Some (d_info !! "irmc_boot_iso"))
     && bool_decide (node_state = ACTIVE) then
    iso ← dict_item d_info "irmc_boot_iso";
    _setup_vmedia_for_boot E iso None;;
    node_set_boot_device CDROM node_set_boot_device_default_persistent
  else mret tt.

Definition check_share_fs_mounted (E : Env) : M unit :=
  _parse_config_option E;;
  ismount ← os_path_ismount (remote_image_share_root (CONF E));
  if ismount : bool then mret tt
  else raise (IRMCSharedFileSystemNotMounted (remote_image_share_root (CONF E))).

Module IRMCVirtualMediaBoot.

(** [super().__init__()] of [base.BootInterface] does nothing. *)
Definition __init__ (E : Env) : M unit :=
  check_share_fs_mounted E;;
  mret tt.

Definition validate (E : Env) : M unit :=
  check_share_fs_mounted E;;
  d_info ← _parse_deploy_info E;
  n ← gets node;
  props ←
    (if truthy (dict_get (driver_internal_info n) "is_whole_disk_image") then
       mret []
     else
       image_source ← dict_item d_info "image_source";
       if is_glance_image (EXT E) image_source then
         mret ["kernel_id"; "ramdisk_id"]
       else mret ["kernel"; "ramdisk"]);
  validate_image_properties props.

Definition prepare_ramdisk (E : Env) (ramdisk_params : gmap string Val)
    : M unit :=
  n ← gets node;
  if bool_decide (provision_state n ≠ DEPLOYING)
     && bool_decide (provision_state n ≠ CLEANING) then
    mret tt
  else
    let deploy_nic_mac := get_single_nic_with_vif_port_id (EXT E) n in
    let ramdisk_params := <["BOOTIF" := deploy_nic_mac]> ramdisk_params in
    _setup_deploy_iso E ramdisk_params.

Definition clean_up_ramdisk (E : Env) : M unit :=
  _cleanup_vmedia_boot E.

Definition _configure_vmedia_boot (E : Env) (root_uuid_or_disk_id : Val)
    : M unit :=
  _prepare_boot_iso E root_uuid_or_disk_id;;
  n ← gets node;
  iso ← dict_item (driver_internal_info n) "irmc_boot_iso";
  _setup_vmedia_for_boot E iso None;;
  node_set_boot_device CDROM true.

Definition prepare_instance (E : Env) : M unit :=
  _cleanup_vmedia_boot E;;
  n ← gets node;
  let iwdi := dict_get (driver_internal_info n) "is_whole_disk_image" in
  if String.eqb (get_boot_option (EXT E) n) "local" || truthy iwdi then
    node_set_boot_device DISK true
  else
    let driver_internal_info := driver_internal_info n in
    root_uuid_or_disk_id ← dict_item driver_internal_info "root_uuid_or_disk_id";
    _configure_vmedia_boot E root_uuid_or_disk_id.

Definition clean_up_instance (E : Env) : M unit :=
  n ← gets node;
  _remove_share_file E (_get_boot_iso_name n);;
  (* the pops act on the node's own dictionary *)
  modify (with_node (λ n,
    set_driver_internal_info n (dict_pop "irmc_boot_iso" (driver_internal_info n))));;
  modify (with_node (λ n,
    set_driver_internal_info n
      (dict_pop "root_uuid_or_disk_id" (driver_internal_info n))));;
  modify (with_node (λ n, set_driver_internal_info n (driver_internal_info n)));;
  node_save;;
  _cleanup_vmedia_boot E.

End IRMCVirtualMediaBoot.

(** ** A concrete deployment, used to run the driver

    Node [N1] of the spec's end-to-end scenario, with the default share
    options of the iRMC driver. *)

Definition conf0 : Conf :=
  {| remote_image_share_root := "/remote_image_share_root";
     remote_image_share_name := "share";
     remote_image_server := "10.0.0.9";
     remote_image_user_domain := "local";
     remote_image_share_type := "CIFS";
     remote_image_user_name := "admin";
     remote_image_user_password := "secret";
     pxe_append_params := "nofb nomodeset vga=normal" |}.

Definition ext0 : Externals :=
  {| is_image_href_ordinary_file_name := λ v,
       match v with
       | VStr s => negb (String.prefix "http://" s)
       | _ => false
       end;
     is_glance_image := λ _, false;
     get_image_instance_info := λ _,
       inr {[ "image_source" := VStr "http://img/os.qcow2" ]};
     get_boot_option := λ _, "netboot";
     get_boot_mode_for_deploy := λ _, VStr "bios";
     get_single_nic_with_vif_port_id := λ _, VStr "aa:bb:cc:dd:ee:ff";
     image_properties := λ _,
       {[ "kernel_id" := VStr "http://img/vmlinuz";
          "ramdisk_id" := VStr "http://img/initrd" ]};
     irmc_client_failure := λ _, None |}.

Definition env0 : Env := {| CONF := conf0; EXT := ext0 |}.

Definition node0 (st : ProvisionState) (dii : gmap string Val) : Node :=
  {| uuid := "N1";
     provision_state := st;
     driver_info := {[ "irmc_deploy_iso" := VStr "http://img/deploy.iso" ]};
     instance_info := ∅;
     driver_internal_info := dii |}.

Definition share0 (mounted : bool) (fs : gset string) : Share :=
  {| files := fs;
     dirs := {[ "/remote_image_share_root" ]};
     mounts := if mounted then {[ "/remote_image_share_root" ]} else ∅ |}.

Definition irmc0 : Controller :=
  {| cd_image := None; cd_inserted := false;
     fd_image := None; fd_inserted := false; boot_device := None |}.

Definition world0 (n : Node) (s : Share) (f : nat → bool) : World :=
  {| node := n; stored := n; share := s; irmc := irmc0;
     trace := []; faults := f |}.

Definition no_faults : nat → bool := λ _, false.

(** * Definitions used by the statements *)

(** [runs m w evs Q]: started in [w], the computation [m] appends to the
    log a prefix of [evs]; when it returns, it has appended the whole of
    [evs] and [Q] holds of the result and the final world. *)
Definition runs {A} (m : M A) (w : World) (evs : list Event)
    (Q : A → World → Prop) : Prop :=
  ∃ done,
    trace (m w).2 = trace w ++ done ∧
    done `prefix_of` evs ∧
    ∀ a, (m w).1 = Ok a → done = evs ∧ Q a (m w).2.

Definition same_node (w : World) : unit → World → Prop :=
  λ _ w', node w' = node w.

(** The two commands of an attach, as the controller receives them. *)
Definition cd_set_params (E : Env) (filename : Val) : ScciCmd :=
  virtual_cd_set_params
    (remote_image_server (CONF E)) (remote_image_user_domain (CONF E))
    (remote_image_share_type (CONF E)) (remote_image_share_name (CONF E))
    filename
    (remote_image_user_name (CONF E)) (remote_image_user_password (CONF E)).

Definition fd_set_params (E : Env) (filename : string) : ScciCmd :=
  virtual_fd_set_params
    (remote_image_server (CONF E)) (remote_image_user_domain (CONF E))
    (remote_image_share_type (CONF E)) (remote_image_share_name (CONF E))
    filename
    (remote_image_user_name (CONF E)) (remote_image_user_password (CONF E)).

Definition attach_cd_calls (E : Env) (iso : Val) : list Event :=
  [EvScci (cd_set_params E iso); EvScci MOUNT_CD].

Definition attach_fd_calls (E : Env) (floppy : string) : list Event :=
  [EvScci (fd_set_params E floppy); EvScci MOUNT_FD].

(** Full path of a file staged under the share root. *)
Definition staged_path (E : Env) (filename : string) : string :=
  os_path_join (remote_image_share_root (CONF E)) filename.

(** Full path that [_remove_share_file] unlinks for a file name. *)
Definition removed_path (E : Env) (filename : string) : string :=
  os_path_join (remote_image_share_name (CONF E)) filename.

(** Calls of the floppy branch of [_setup_vmedia_for_boot]. *)
Definition floppy_calls (E : Env) (n : Node)
    (parameters : option (gmap string Val)) : list Event :=
  match parameters with
  | Some params =>
      if dict_truthy params then
        [EvCreateVfatImage params;
         EvCopyFile (staged_path E (_get_floppy_image_name n))]
        ++ attach_fd_calls E (_get_floppy_image_name n)
      else []
  | None => []
  end.

(** The fixed order of the spec: detach CD, detach floppy, the floppy if
    parameters were given, attach CD. *)
Definition vmedia_setup_calls (E : Env) (n : Node) (iso : Val)
    (parameters : option (gmap string Val)) : list Event :=
  [EvScci UNMOUNT_CD] ++ [EvScci UNMOUNT_FD]
  ++ floppy_calls E n parameters ++ attach_cd_calls E iso.

Definition cleanup_calls (E : Env) (n : Node) : list Event :=
  [EvScci UNMOUNT_CD] ++ [EvScci UNMOUNT_FD]
  ++ [EvUnlink (removed_path E (_get_floppy_image_name n))]
  ++ [EvUnlink (removed_path E (_get_deploy_iso_name n))].

Definition w_active : World :=
  world0 (node0 ACTIVE {[ "irmc_boot_iso" := VStr "boot-N1.iso" ]})
    (share0 true {[ "/remote_image_share_root/boot-N1.iso" ]}) no_faults.


Definition w_deploying : World :=
  world0 (node0 DEPLOYING {[ "root_uuid_or_disk_id" := VStr "uuid-123" ]})
    (share0 true ∅) no_faults.

(** The node after the two pops of [clean_up_instance]. *)
Definition cleared (n : Node) : Node :=
  set_driver_internal_info n
    (dict_pop "root_uuid_or_disk_id"
       (dict_pop "irmc_boot_iso" (driver_internal_info n))).

Definition clean_up_instance_calls (E : Env) (n : Node) : list Event :=
  [EvUnlink (removed_path E (_get_boot_iso_name n))]
  ++ [EvNodeSave (cleared n)]
  ++ cleanup_calls E n.

(** Node N1 after [prepare_instance] has built and attached its boot ISO. *)
Definition w_instance : World :=
  world0
    (node0 ACTIVE {[ "irmc_boot_iso" := VStr "boot-N1.iso";
                     "root_uuid_or_disk_id" := VStr "uuid-123" ]})
    (share0 true {[ "/remote_image_share_root/boot-N1.iso" ]}) no_faults.


(** The kernel and ramdisk handed to the builder: the instance's own, or
    else those of the image's properties. *)
Definition kernel_href_of (E : Env) (n : Node) (image_href : Val) : Val :=
  if truthy (dict_get (instance_info n) "kernel")
  then dict_get (instance_info n) "kernel"
  else dict_get (image_properties (EXT E) image_href) "kernel_id".

Definition ramdisk_href_of (E : Env) (n : Node) (image_href : Val) : Val :=
  if truthy (dict_get (instance_info n) "ramdisk")
  then dict_get (instance_info n) "ramdisk"
  else dict_get (image_properties (EXT E) image_href) "ramdisk_id".

(** The call to the Artifact Builder for the boot ISO of a node. *)
Definition build_boot_iso_call (E : Env) (n : Node)
    (deploy_info : gmap string Val) (root_uuid : Val) : Event :=
  let image_href := dict_get deploy_info "image_source" in
  EvCreateBootIso
    (staged_path E (_get_boot_iso_name n))
    (kernel_href_of E n image_href) (ramdisk_href_of E n image_href)
    ("file://" +:+ staged_path E (_get_deploy_iso_name n))
    root_uuid (pxe_append_params (CONF E))
    (get_boot_mode_for_deploy (EXT E) n).

(** Staging calls of [_prepare_boot_iso]: none for a bare file name, a
    fetch for another explicit reference, the builder when there is no
    explicit reference. *)
Definition boot_iso_staging_calls (E : Env) (n : Node)
    (deploy_info : gmap string Val) (root_uuid : Val) : list Event :=
  let href := dict_get deploy_info "irmc_boot_iso" in
  if truthy href then
    if is_image_href_ordinary_file_name (EXT E) href then []
    else [EvFetch href (staged_path E (_get_boot_iso_name n))]
  else
    [EvGetImageProperties (dict_get deploy_info "image_source")]
    ++ [build_boot_iso_call E n deploy_info root_uuid].

(** The artifact name that [_prepare_boot_iso] records. *)
Definition chosen_boot_iso (E : Env) (n : Node)
    (deploy_info : gmap string Val) : Val :=
  let href := dict_get deploy_info "irmc_boot_iso" in
  if truthy href then
    if is_image_href_ordinary_file_name (EXT E) href then href
    else VStr (_get_boot_iso_name n)
  else VStr (_get_boot_iso_name n).

Definition with_boot_iso (n : Node) (v : Val) : Node :=
  set_driver_internal_info n
    (<["irmc_boot_iso" := v]> (driver_internal_info n)).

(** The attach step of [_configure_vmedia_boot] and the boot device. *)
Definition attach_boot_iso_calls (E : Env) (iso : Val) : list Event :=
  [EvScci UNMOUNT_CD; EvScci UNMOUNT_FD;
   EvScci (cd_set_params E iso); EvScci MOUNT_CD;
   EvSetBootDevice CDROM true].

(** What the deploy information of node N1 parses to. *)
Definition deploy_info0 : gmap string Val :=
  {[ "image_source" := VStr "http://img/os.qcow2";
     "irmc_deploy_iso" := VStr "http://img/deploy.iso" ]}.

(** The world with another set of mount points. *)
Definition set_mounts (ms : gset string) (w : World) : World :=
  with_share (λ s, {| files := files s; dirs := dirs s; mounts := ms |}) w.

(** A computation that never looks at the mount points: it runs the same
    way whatever they are, and leaves them as they were. *)
Definition mount_blind {A} (m : M A) : Prop :=
  ∀ ms w, m (set_mounts ms w) = ((m w).1, set_mounts ms (m w).2).

(** Node N1 on a conductor whose share root is a plain directory: the
    share is not mounted. *)
Definition w_unmounted : World :=
  world0 (node0 DEPLOYING {[ "root_uuid_or_disk_id" := VStr "uuid-123" ]})
    (share0 false ∅) no_faults.

(** The reading of C1 as it stands, for one entry point. *)
Definition refuses_unmounted_share (E : Env) (entry : M unit) (w : World)
    : Prop :=
  remote_image_share_root (CONF E) ∉ mounts (share w) →
  (entry w).1
  = Raise (IRMCSharedFileSystemNotMounted (remote_image_share_root (CONF E)))
  ∧ trace (entry w).2 = trace w.

(** The controller after the two ejects. *)
Definition ejected (c : Controller) : Controller :=
  scci_effect UNMOUNT_FD (scci_effect UNMOUNT_CD c).

(** The reading of C6 as it stands: the second run returns and ends in
    the state the first one left (node, share and controller). *)
Definition cleanup_twice_as_once (cleanup : M unit) (w : World) : Prop :=
  let w1 := (cleanup w).2 in
  let w2 := (cleanup w1).2 in
  (cleanup w1).1 = Ok tt
  ∧ node w2 = node w1 ∧ share w2 = share w1 ∧ irmc w2 = irmc w1.

(** The controller refuses the fifth call, the first eject of a second
    [clean_up_ramdisk]. *)
Definition w_eject_refused : World :=
  world0 (node0 ACTIVE ∅) (share0 true ∅) (λ i, Nat.eqb i 4).

(** The deploy ISO is at the path the removal unlinks, and the fourth
    call, its unlink in a first [clean_up_ramdisk], meets an I/O error. *)
Definition w_unlink_error : World :=
  world0 (node0 ACTIVE ∅) (share0 true {[ "share/deploy-N1.iso" ]})
    (λ i, Nat.eqb i 3).

(** The controller refuses the ninth call, the first eject of a second
    [clean_up_instance]. *)
Definition w_instance_eject_refused : World :=
  world0
    (node0 ACTIVE {[ "irmc_boot_iso" := VStr "boot-N1.iso";
                     "root_uuid_or_disk_id" := VStr "uuid-123" ]})
    (share0 true {[ "/remote_image_share_root/boot-N1.iso" ]})
    (λ i, Nat.eqb i 8).

(** Node N1 with every artifact at the path that the removal unlinks. *)
Definition w_leftovers : World :=
  world0
    (node0 ACTIVE {[ "irmc_boot_iso" := VStr "boot-N1.iso";
                     "root_uuid_or_disk_id" := VStr "uuid-123" ]})
    (share0 true {[ "share/boot-N1.iso"; "share/image-N1.img";
                    "share/deploy-N1.iso" ]})
    no_faults.

(** A computation that never ends in the exception [e], in any world. *)
Definition never_escapes {A} (e : Exn) (m : M A) : Prop :=
  ∀ w, (m w).1 ≠ Raise e.

(** Node N1 deployed from a whole-disk image. *)
Definition w_whole_disk : World :=
  world0 (node0 DEPLOYING {[ "is_whole_disk_image" := VBool true ]})
    (share0 true ∅) no_faults.

(** Node N1 set for a network boot, with no root identifier recorded. *)
Definition w_no_root_id : World :=
  world0 (node0 DEPLOYING ∅) (share0 true ∅) no_faults.

(** The controller refuses the first call. *)
Definition w_first_call_refused : World :=
  world0 (node0 ACTIVE ∅) (share0 true ∅) (λ i, Nat.eqb i 0).

(** Node N1 with its boot ISO attached; the controller refuses the third
    call, the first eject of [clean_up_instance]. *)
Definition w_instance_save_then_refusal : World :=
  world0
    (node0 ACTIVE {[ "irmc_boot_iso" := VStr "boot-N1.iso";
                     "root_uuid_or_disk_id" := VStr "uuid-123" ]})
    (share0 true {[ "/remote_image_share_root/boot-N1.iso" ]})
    (λ i, Nat.eqb i 2).

(** A world in which nothing fails from now on: a client can be built for
    the node and no call that is still to come is refused. *)
Definition accepting (E : Env) (w : World) : Prop :=
  irmc_client_failure (EXT E) (driver_info (node w)) = None
  ∧ ∀ i, length (trace w) ≤ i → faults w i = false.

(** [succeeds E m w Q]: started in [w], the computation [m] returns, in a
    world that is still accepting and where [Q] holds of the result. *)
Definition succeeds {A} (E : Env) (m : M A) (w : World)
    (Q : A → World → Prop) : Prop :=
  ∃ a, (m w).1 = Ok a ∧ accepting E (m w).2 ∧ Q a (m w).2.

(** * Reasoning about runs *)

Lemma runs_ret {A} (a : A) w (Q : A → World → Prop) :
  Q a w → runs (mret a) w [] Q.
Proof.
  intros HQ. exists []. split; [by rewrite app_nil_r|].
  split; [done|]. intros a' [= <-]. done.
Qed.

Lemma runs_raise {A} e w evs (Q : A → World → Prop) :
  runs (raise e) w evs Q.
Proof.
  exists []. split; [by rewrite app_nil_r|].
  split; [apply prefix_nil|]. intros a [=].
Qed.

Lemma runs_gets {A} (f : World → A) w (Q : A → World → Prop) :
  Q (f w) w → runs (gets f) w [] Q.
Proof. apply runs_ret. Qed.

Lemma runs_modify (f : World → World) w (Q : unit → World → Prop) :
  trace (f w) = trace w → Q tt (f w) → runs (modify f) w [] Q.
Proof.
  intros Ht HQ. exists []. cbn. rewrite app_nil_r. split; [done|].
  split; [done|]. intros [] _. done.
Qed.

Lemma runs_bind {A B} (m : M A) (f : A → M B) w e1 e2
    (P : A → World → Prop) (Q : B → World → Prop) :
  runs m w e1 P →
  (∀ a w', P a w' → runs (f a) w' e2 Q) →
  runs (m ≫= f) w (e1 ++ e2) Q.
Proof.
  intros (d1 & Ht1 & Hp1 & Hok1) Hf.
  unfold runs in *. unfold mbind, M_bind. cbn beta.
  destruct (m w) as [[a|e] w'] eqn:Hm; cbn in *.
  - destruct (Hok1 a eq_refl) as [-> HP].
    destruct (Hf a w' HP) as (d2 & Ht2 & Hp2 & Hok2).
    exists (e1 ++ d2). rewrite Ht2, Ht1, app_assoc. split; [done|].
    split; [by apply prefix_app|].
    intros b Hb. destruct (Hok2 b Hb) as [-> HQ]. done.
  - exists d1. split; [done|]. split; [by apply prefix_app_r|].
    intros b [=].
Qed.

Lemma runs_conseq {A} (m : M A) w evs (P Q : A → World → Prop) :
  runs m w evs P → (∀ a w', P a w' → Q a w') → runs m w evs Q.
Proof.
  intros (d & Ht & Hp & Hok) HPQ. exists d. split; [done|]. split; [done|].
  intros a Ha. destruct (Hok a Ha) as [-> HP]. split; [done|]. by apply HPQ.
Qed.

Lemma runs_bind_silent {A B} (m : M A) (f : A → M B) w evs
    (P : A → World → Prop) (Q : B → World → Prop) :
  runs m w [] P →
  (∀ a w', P a w' → runs (f a) w' evs Q) →
  runs (m ≫= f) w evs Q.
Proof. intros Hm Hf. by apply (runs_bind m f w [] evs P Q). Qed.

Lemma runs_bind_last {A B} (m : M A) (f : A → M B) w evs
    (P : A → World → Prop) (Q : B → World → Prop) :
  runs m w evs P →
  (∀ a w', P a w' → runs (f a) w' [] Q) →
  runs (m ≫= f) w evs Q.
Proof.
  intros Hm Hf. rewrite <- (app_nil_r evs).
  by apply (runs_bind m f w evs [] P Q).
Qed.

(** Unfolding of the monad, for the calls that are proved by running them. *)
Ltac unfold_monad :=
  unfold try_except, call, gets, modify, raise, mbind, M_bind, mret, M_ret
    in *;
  cbn in *.

Ltac solve_prefix :=
  repeat first [ apply prefix_nil | reflexivity | apply prefix_cons ].

Ltac log_done :=
  eexists; split;
    [ first [ reflexivity
            | symmetry; apply app_nil_r
            | rewrite <- !app_assoc; reflexivity ] | ];
  split;
    [ first [ reflexivity | apply prefix_nil | solve_prefix ] | ];
  intros ? ?; simplify_eq; try done.

Ltac run_cases :=
  repeat match goal with
         | |- context [match ?x with _ => _ end] =>
             lazymatch x with
             | context [match _ with _ => _ end] => fail
             | _ => destruct x eqn:?; cbn
             end
         end.


(** *** The calls to the collaborators *)

Lemma runs_irmc_client cmd w :
  runs (irmc_client cmd) w [EvScci cmd] (same_node w).
Proof. unfold runs, irmc_client. unfold_monad. run_cases; log_done. Qed.

Lemma runs_detach_virtual_cd E w :
  runs (_detach_virtual_cd E) w [EvScci UNMOUNT_CD] (same_node w).
Proof.
  unfold runs, _detach_virtual_cd, get_irmc_client, irmc_client.
  unfold_monad. run_cases; log_done.
Qed.

Lemma runs_detach_virtual_fd E w :
  runs (_detach_virtual_fd E) w [EvScci UNMOUNT_FD] (same_node w).
Proof.
  unfold runs, _detach_virtual_fd, get_irmc_client, irmc_client.
  unfold_monad. run_cases; log_done.
Qed.

Lemma runs_attach_virtual_cd E iso w :
  runs (_attach_virtual_cd E iso) w (attach_cd_calls E iso) (same_node w).
Proof.
  unfold runs, _attach_virtual_cd, get_irmc_client, irmc_client.
  unfold_monad. run_cases; log_done.
Qed.

Lemma runs_attach_virtual_fd E floppy w :
  runs (_attach_virtual_fd E floppy) w (attach_fd_calls E floppy) (same_node w).
Proof.
  unfold runs, _attach_virtual_fd, get_irmc_client, irmc_client.
  unfold_monad. run_cases; log_done.
Qed.

Lemma runs_remove_share_file E name w :
  runs (_remove_share_file E name) w [EvUnlink (removed_path E name)]
    (same_node w).
Proof.
  unfold runs, _remove_share_file, unlink_without_raise, os_unlink.
  unfold_monad. run_cases; log_done.
Qed.

Lemma runs_prepare_floppy_image E params w :
  runs (_prepare_floppy_image E params) w
    [EvCreateVfatImage params;
     EvCopyFile (staged_path E (_get_floppy_image_name (node w)))]
    (λ name w', name = _get_floppy_image_name (node w) ∧ node w' = node w).
Proof.
  unfold runs, _prepare_floppy_image, images_create_vfat_image,
    shutil_copyfile.
  unfold_monad. run_cases; log_done.
Qed.

Lemma runs_images_fetch href path w :
  runs (images_fetch href path) w [EvFetch href path] (same_node w).
Proof. unfold runs, images_fetch. unfold_monad. run_cases; log_done. Qed.

Lemma runs_images_get_image_properties E href w :
  runs (images_get_image_properties E href) w [EvGetImageProperties href]
    (λ props w', props = image_properties (EXT E) href ∧ node w' = node w).
Proof.
  unfold runs, images_get_image_properties. unfold_monad.
  run_cases; log_done.
Qed.

Lemma runs_images_create_boot_iso path k r d u p b w :
  runs (images_create_boot_iso path k r d u p b) w
    [EvCreateBootIso path k r d u p b] (same_node w).
Proof.
  unfold runs, images_create_boot_iso. unfold_monad. run_cases; log_done.
Qed.

Lemma runs_node_save w :
  runs node_save w [EvNodeSave (node w)]
    (λ _ w', node w' = node w ∧ stored w' = node w).
Proof. unfold runs, node_save. unfold_monad. run_cases; log_done. Qed.

Lemma runs_node_set_boot_device d p w :
  runs (node_set_boot_device d p) w [EvSetBootDevice d p] (same_node w).
Proof.
  unfold runs, node_set_boot_device. unfold_monad. run_cases; log_done.
Qed.

(** *** The vmedia setup sequence *)

Lemma runs_setup_vmedia_for_boot E iso parameters w :
  runs (_setup_vmedia_for_boot E iso parameters) w
    (vmedia_setup_calls E (node w) iso parameters) (same_node w).
Proof.
  unfold _setup_vmedia_for_boot, vmedia_setup_calls.
  eapply runs_bind; [apply runs_detach_virtual_cd|].
  intros [] w1 H1. eapply runs_bind; [apply runs_detach_virtual_fd|].
  intros [] w2 H2. unfold same_node in *.
  assert (Hn : node w2 = node w) by congruence. rewrite <- Hn. clear H1 H2 Hn.
  eapply runs_bind with (P := λ _ w', node w' = node w2).
  - unfold floppy_calls. destruct parameters as [params|].
    + destruct (dict_truthy params).
      * eapply runs_bind; [apply runs_prepare_floppy_image|].
        intros name w3 [-> H3]. rewrite <- H3.
        eapply runs_conseq; [apply runs_attach_virtual_fd|].
        unfold same_node. intros _ w4 ->. done.
      * by apply runs_ret.
    + by apply runs_ret.
  - intros [] w3 H3. eapply runs_conseq; [apply runs_attach_virtual_cd|].
    unfold same_node. intros _ w4 ->. done.
Qed.

(** *** Cleanup after a virtual media boot *)

Lemma runs_cleanup_vmedia_boot E w :
  runs (_cleanup_vmedia_boot E) w (cleanup_calls E (node w)) (same_node w).
Proof.
  unfold _cleanup_vmedia_boot, cleanup_calls, same_node.
  eapply runs_bind; [apply runs_detach_virtual_cd|].
  intros [] w1 H1. eapply runs_bind; [apply runs_detach_virtual_fd|].
  intros [] w2 H2. unfold same_node in *.
  assert (Hn : node w2 = node w) by congruence. rewrite <- Hn. clear H1 H2 Hn.
  eapply runs_bind_silent with (P := λ n w', n = node w2 ∧ w' = w2);
    [by apply runs_gets|].
  intros n w3 [-> ->].
  eapply runs_bind; [apply runs_remove_share_file|].
  intros [] w4 H4. eapply runs_conseq; [apply runs_remove_share_file|].
  unfold same_node in *. intros _ w5 ->. done.
Qed.

(** ** Runs in which every call is accepted *)

Lemma succeeds_ret {A} E (a : A) w (Q : A → World → Prop) :
  accepting E w → Q a w → succeeds E (mret a) w Q.
Proof. intros Hacc HQ. by exists a. Qed.



Lemma succeeds_bind {A B} E (m : M A) (f : A → M B) w
    (P : A → World → Prop) (Q : B → World → Prop) :
  succeeds E m w P →
  (∀ a w', accepting E w' → P a w' → succeeds E (f a) w' Q) →
  succeeds E (m ≫= f) w Q.
Proof.
  intros (a & Ha & Hacc & HP) Hf. unfold succeeds, mbind, M_bind in *.
  cbn beta. destruct (m w) as [r w']. cbn in *. subst r.
  exact (Hf a w' Hacc HP).
Qed.

Lemma succeeds_conseq {A} E (m : M A) w (P Q : A → World → Prop) :
  succeeds E m w P → (∀ a w', P a w' → Q a w') → succeeds E m w Q.
Proof.
  intros (a & Ha & Hacc & HP) HPQ. exists a. split; [done|].
  split; [done|]. by apply HPQ.
Qed.

(** Answers the fault schedule for the calls of an accepting world. *)
Ltac accept_calls Hf :=
  repeat (rewrite Hf by (rewrite ?length_app; cbn [length]; lia); cbn).

(** Closes the goal left by a call that was accepted. *)
Ltac accepted Hc Hf :=
  eexists; split; [reflexivity|]; split; [|done]; split; [exact Hc|];
  cbn; intros i Hi; apply Hf; rewrite ?length_app in Hi; cbn in Hi; lia.

Lemma succeeds_detach_virtual_cd E w :
  accepting E w → succeeds E (_detach_virtual_cd E) w (same_node w).
Proof.
  intros [Hc Hf].
  unfold succeeds, accepting, _detach_virtual_cd, get_irmc_client, irmc_client.
  unfold_monad. rewrite Hc. cbn. accept_calls Hf. accepted Hc Hf.
Qed.

Lemma succeeds_detach_virtual_fd E w :
  accepting E w → succeeds E (_detach_virtual_fd E) w (same_node w).
Proof.
  intros [Hc Hf].
  unfold succeeds, accepting, _detach_virtual_fd, get_irmc_client, irmc_client.
  unfold_monad. rewrite Hc. cbn. accept_calls Hf. accepted Hc Hf.
Qed.

Lemma succeeds_attach_virtual_cd E iso w :
  accepting E w → succeeds E (_attach_virtual_cd E iso) w (same_node w).
Proof.
  intros [Hc Hf].
  unfold succeeds, accepting, _attach_virtual_cd, get_irmc_client, irmc_client.
  unfold_monad. rewrite Hc. cbn. accept_calls Hf. accepted Hc Hf.
Qed.

Lemma succeeds_attach_virtual_fd E floppy w :
  accepting E w → succeeds E (_attach_virtual_fd E floppy) w (same_node w).
Proof.
  intros [Hc Hf].
  unfold succeeds, accepting, _attach_virtual_fd, get_irmc_client, irmc_client.
  unfold_monad. rewrite Hc. cbn. accept_calls Hf. accepted Hc Hf.
Qed.


Lemma succeeds_prepare_floppy_image E params w :
  accepting E w →
  succeeds E (_prepare_floppy_image E params) w
    (λ name w', name = _get_floppy_image_name (node w) ∧ node w' = node w).
Proof.
  intros [Hc Hf].
  unfold succeeds, accepting, _prepare_floppy_image, images_create_vfat_image,
    shutil_copyfile.
  unfold_monad. accept_calls Hf. accepted Hc Hf.
Qed.






(** When every call is accepted the vmedia setup sequence returns. *)
Lemma succeeds_setup_vmedia_for_boot E iso parameters w :
  accepting E w →
  succeeds E (_setup_vmedia_for_boot E iso parameters) w (same_node w).
Proof.
  intros Hacc. unfold _setup_vmedia_for_boot, same_node.
  eapply succeeds_bind; [by apply succeeds_detach_virtual_cd|].
  unfold same_node. intros [] w1 A1 H1.
  eapply succeeds_bind; [by apply succeeds_detach_virtual_fd|].
  unfold same_node. intros [] w2 A2 H2.
  eapply succeeds_bind with (P := λ _ w', node w' = node w).
  - destruct parameters as [params|].
    + destruct (dict_truthy params).
      * eapply succeeds_bind; [by apply succeeds_prepare_floppy_image|].
        intros name w3 A3 [-> H3].
        eapply succeeds_conseq; [by apply succeeds_attach_virtual_fd|].
        unfold same_node. intros _ w4 ->. congruence.
      * apply succeeds_ret; [done|congruence].
    + apply succeeds_ret; [done|congruence].
  - intros [] w3 A3 H3.
    eapply succeeds_conseq; [by apply succeeds_attach_virtual_cd|].
    unfold same_node. intros _ w4 ->. done.
Qed.




(** The concrete deployment of node N1 refuses nothing. *)
Lemma accepting_without_faults n s : accepting env0 (world0 n s no_faults).
Proof. split; [reflexivity|]. intros i _. reflexivity. Qed.

(** * The claims *)

(** ** Image naming *)

Lemma deploy_name_is_not_a_boot_name (n n' : Node) :
  _get_deploy_iso_name n ≠ _get_boot_iso_name n'.
Proof. unfold _get_deploy_iso_name, _get_boot_iso_name. cbn. intros [=]. Qed.

(** C9.  The deploy-ISO name is a function of the node identifier alone:
    two calls on nodes with the same identifier, whatever the rest of
    their state, give the same string (the function is pure and total, it
    reads nothing but [uuid]); and for one node the deploy-ISO name
    differs from the boot-ISO name. *)
Theorem deploy_iso_name_deterministic_and_distinct (n n' : Node) :
  (uuid n = uuid n' → _get_deploy_iso_name n = _get_deploy_iso_name n')
  ∧ _get_deploy_iso_name n ≠ _get_boot_iso_name n.
Proof.
  split.
  - unfold _get_deploy_iso_name. by intros ->.
  - apply deploy_name_is_not_a_boot_name.
Qed.

Lemma deploy_iso_name_deterministic_and_distinct_witness :
  (uuid (node0 DEPLOYING ∅) = uuid (node0 ACTIVE ∅) →
   _get_deploy_iso_name (node0 DEPLOYING ∅)
   = _get_deploy_iso_name (node0 ACTIVE ∅))
  ∧ _get_deploy_iso_name (node0 DEPLOYING ∅)
    ≠ _get_boot_iso_name (node0 DEPLOYING ∅).
Proof.
  exact (deploy_iso_name_deterministic_and_distinct
           (node0 DEPLOYING ∅) (node0 ACTIVE ∅)).
Defined.

(** ** The vmedia setup sequence *)

(** C4.  Every run of [_setup_vmedia_for_boot] appends to the log of
    calls a prefix of the fixed sequence: eject CD, eject floppy, then
    (only for parameters that are given and not empty) build the floppy
    image, copy it to the share and insert it, then insert the CD with the
    given ISO name; a run that returns has made the whole sequence, and
    nothing else.  The run does return, having made the whole sequence,
    whenever a client can be built for the node and no call is refused. *)
Theorem setup_vmedia_for_boot_fixed_order E iso parameters w :
  ∃ done,
    trace (_setup_vmedia_for_boot E iso parameters w).2 = trace w ++ done
    ∧ done `prefix_of` vmedia_setup_calls E (node w) iso parameters
    ∧ ((_setup_vmedia_for_boot E iso parameters w).1 = Ok tt →
       done = vmedia_setup_calls E (node w) iso parameters)
    ∧ (accepting E w →
       (_setup_vmedia_for_boot E iso parameters w).1 = Ok tt).
Proof.
  destruct (runs_setup_vmedia_for_boot E iso parameters w)
    as (done & Ht & Hp & Hok).
  exists done. split; [done|]. split; [done|]. split.
  - intros Hr. by destruct (Hok tt Hr).
  - intros Hacc.
    destruct (succeeds_setup_vmedia_for_boot E iso parameters w Hacc)
      as ([] & Hr & _). exact Hr.
Qed.

(** On node N1, with the address of the deploy NIC as parameter, every
    call is accepted and the whole sequence is made, floppy included. *)
Lemma setup_vmedia_for_boot_fixed_order_witness :
  accepting env0 w_deploying
  ∧ (_setup_vmedia_for_boot env0 (VStr "deploy-N1.iso")
       (Some {[ "BOOTIF" := VStr "aa:bb:cc:dd:ee:ff" ]}) w_deploying).1
    = Ok tt
  ∧ trace (_setup_vmedia_for_boot env0 (VStr "deploy-N1.iso")
             (Some {[ "BOOTIF" := VStr "aa:bb:cc:dd:ee:ff" ]}) w_deploying).2
    = [EvScci UNMOUNT_CD; EvScci UNMOUNT_FD;
       EvCreateVfatImage {[ "BOOTIF" := VStr "aa:bb:cc:dd:ee:ff" ]};
       EvCopyFile "/remote_image_share_root/image-N1.img";
       EvScci (fd_set_params env0 "image-N1.img"); EvScci MOUNT_FD;
       EvScci (cd_set_params env0 (VStr "deploy-N1.iso")); EvScci MOUNT_CD].
Proof.
  pose proof (accepting_without_faults
                (node0 DEPLOYING {[ "root_uuid_or_disk_id" := VStr "uuid-123" ]})
                (share0 true ∅)) as Hacc.
  destruct (setup_vmedia_for_boot_fixed_order env0 (VStr "deploy-N1.iso")
              (Some {[ "BOOTIF" := VStr "aa:bb:cc:dd:ee:ff" ]}) w_deploying)
    as (done & Ht & _ & Hok & Hlive).
  split; [exact Hacc|]. split; [exact (Hlive Hacc)|].
  rewrite Ht, (Hok (Hlive Hacc)). vm_compute. reflexivity.
Defined.


(** ** Phase entry points *)

(** C5.  Outside Deploying and Cleaning, [prepare_ramdisk] returns at
    once: no call is made and the world, node included, is unchanged. *)
Theorem prepare_ramdisk_noop_outside_deploy_and_clean E ramdisk_params w :
  provision_state (node w) ≠ DEPLOYING →
  provision_state (node w) ≠ CLEANING →
  IRMCVirtualMediaBoot.prepare_ramdisk E ramdisk_params w = (Ok tt, w).
Proof.
  intros Hd Hc. unfold IRMCVirtualMediaBoot.prepare_ramdisk. unfold_monad.
  rewrite !bool_decide_eq_true_2 by done. done.
Qed.

Lemma prepare_ramdisk_noop_witness :
  provision_state (node w_active) ≠ DEPLOYING
  ∧ provision_state (node w_active) ≠ CLEANING
  ∧ IRMCVirtualMediaBoot.prepare_ramdisk env0 ∅ w_active = (Ok tt, w_active).
Proof.
  split; [discriminate|]. split; [discriminate|].
  apply (prepare_ramdisk_noop_outside_deploy_and_clean env0 ∅ w_active);
    discriminate.
Defined.

(** *** Re-attaching the boot ISO *)





(** *** Cleaning up the instance *)





(** The calls of the instance cleanup on node N1. *)
Example clean_up_instance_on_N1 :
  trace (IRMCVirtualMediaBoot.clean_up_instance env0 w_instance).2
  = [EvUnlink "share/boot-N1.iso";
     EvNodeSave (node0 ACTIVE ∅);
     EvScci UNMOUNT_CD; EvScci UNMOUNT_FD;
     EvUnlink "share/image-N1.img"; EvUnlink "share/deploy-N1.iso"].
Proof. vm_compute. reflexivity. Qed.

(** ** Staging and removal paths *)

(** C3.  Node N1 is deployed with the default share options: the share
    root is [/remote_image_share_root], the share name is [share].
    [prepare_instance] builds [boot-N1.iso] under the share root and saves
    its name; the [clean_up_instance] that follows unlinks
    [share/boot-N1.iso], a path under the share name, and the staged file
    is still on the share afterwards. *)
Theorem boot_iso_survives_clean_up_instance :
  let w1 := (IRMCVirtualMediaBoot.prepare_instance env0 w_deploying).2 in
  let w2 := (IRMCVirtualMediaBoot.clean_up_instance env0 w1).2 in
  (IRMCVirtualMediaBoot.prepare_instance env0 w_deploying).1 = Ok tt
  ∧ driver_internal_info (stored w1) !! "irmc_boot_iso"
    = Some (VStr (_get_boot_iso_name (node w1)))
  ∧ staged_path env0 (_get_boot_iso_name (node w1)) ∈ files (share w1)
  ∧ (IRMCVirtualMediaBoot.clean_up_instance env0 w1).1 = Ok tt
  ∧ EvUnlink (removed_path env0 (_get_boot_iso_name (node w1))) ∈ trace w2
  ∧ removed_path env0 (_get_boot_iso_name (node w1))
    ≠ staged_path env0 (_get_boot_iso_name (node w1))
  ∧ staged_path env0 (_get_boot_iso_name (node w1)) ∈ files (share w2).
Proof.
  cbv zeta. split_and!.
  - vm_compute. reflexivity.
  - vm_compute. reflexivity.
  - apply (bool_decide_unpack _). vm_compute. exact I.
  - vm_compute. reflexivity.
  - apply list_elem_of_In. vm_compute.
    repeat first [ left; reflexivity | right ].
  - vm_compute. discriminate.
  - apply (bool_decide_unpack _). vm_compute. exact I.
Qed.

(** ** Preparing the boot ISO *)

(** Parsing the deploy information reads the node and the share and calls
    nobody. *)
Lemma parse_deploy_info_reads_only E w :
  (_parse_deploy_info E w).2 = w.
Proof.
  unfold _parse_deploy_info, _parse_driver_info, _parse_instance_info,
    check_for_missing_params, dict_item, path_join, os_path_isfile.
  unfold_monad. run_cases; reflexivity.
Qed.

Lemma runs_parse_deploy_info E w :
  runs (_parse_deploy_info E) w []
    (λ di w', w' = w ∧ (_parse_deploy_info E w).1 = Ok di).
Proof.
  exists []. rewrite parse_deploy_info_reads_only, app_nil_r.
  split; [done|]. split; [done|]. intros di Hdi. done.
Qed.

Lemma runs_dict_item_bind {B} d k (f : Val → M B) w evs
    (Q : B → World → Prop) :
  (d !! k = Some (dict_get d k) → runs (f (dict_get d k)) w evs Q) →
  runs (dict_item d k ≫= f) w evs Q.
Proof.
  intros Hf. unfold dict_item, dict_get in *.
  destruct (d !! k) as [v|]; cbn in *.
  - exact (Hf eq_refl).
  - exact (runs_raise (KeyError k) w evs Q).
Qed.

Lemma runs_py_or_bind {B} a d k (f : Val → M B) w evs
    (Q : B → World → Prop) :
  runs (f (if truthy a then a else dict_get d k)) w evs Q →
  runs (py_or a (dict_item d k) ≫= f) w evs Q.
Proof.
  intros Hf. unfold py_or. destruct (truthy a).
  - exact Hf.
  - by apply runs_dict_item_bind.
Qed.

Lemma runs_prepare_boot_iso E root_uuid w di :
  (_parse_deploy_info E w).1 = Ok di →
  runs (_prepare_boot_iso E root_uuid) w
    (boot_iso_staging_calls E (node w) di root_uuid
     ++ [EvNodeSave (with_boot_iso (node w) (chosen_boot_iso E (node w) di))])
    (λ _ w', node w' = with_boot_iso (node w) (chosen_boot_iso E (node w) di)).
Proof.
  intros Hdi. unfold _prepare_boot_iso.
  eapply runs_bind_silent; [apply runs_parse_deploy_info|].
  intros di' w' [-> Hdi']. assert (di' = di) by congruence. subst di'.
  clear Hdi'.
  eapply runs_bind_silent with (P := λ n w', n = node w ∧ w' = w);
    [by apply runs_gets|].
  intros n w' [-> ->].
  eapply runs_bind
    with (P := λ _ w',
            node w' = with_boot_iso (node w) (chosen_boot_iso E (node w) di)).
  - unfold boot_iso_staging_calls, chosen_boot_iso.
    destruct (truthy (dict_get di "irmc_boot_iso")) eqn:Hexplicit.
    + apply runs_dict_item_bind. intros _.
      destruct (is_image_href_ordinary_file_name (EXT E)
                  (dict_get di "irmc_boot_iso")) eqn:Hord.
      * by apply runs_modify.
      * eapply runs_bind_last; [apply runs_images_fetch|].
        unfold same_node. intros [] w1 H1.
        apply runs_modify; [done|]. cbn. by rewrite H1.
    + apply runs_dict_item_bind. intros _.
      eapply runs_bind; [apply runs_images_get_image_properties|].
      intros props w1 [-> H1].
      apply runs_py_or_bind. apply runs_py_or_bind.
      eapply runs_bind_last; [apply runs_images_create_boot_iso|].
      unfold same_node. intros [] w2 H2.
      apply runs_modify; [done|]. cbn. by rewrite H2, H1.
  - intros [] w1 H1.
    eapply runs_bind_silent
      with (P := λ _ w',
              node w' = with_boot_iso (node w) (chosen_boot_iso E (node w) di)).
    { apply runs_modify; [done|]. cbn. rewrite H1. done. }
    intros [] w2 H2. rewrite <- H2.
    eapply runs_conseq; [apply runs_node_save|]. by intros [] w3 [H3 _].
Qed.

Lemma runs_configure_vmedia_boot E root_uuid w di :
  (_parse_deploy_info E w).1 = Ok di →
  runs (IRMCVirtualMediaBoot._configure_vmedia_boot E root_uuid) w
    (boot_iso_staging_calls E (node w) di root_uuid
     ++ [EvNodeSave (with_boot_iso (node w) (chosen_boot_iso E (node w) di))]
     ++ attach_boot_iso_calls E (chosen_boot_iso E (node w) di))
    (λ _ w', node w' = with_boot_iso (node w) (chosen_boot_iso E (node w) di)).
Proof.
  intros Hdi. unfold IRMCVirtualMediaBoot._configure_vmedia_boot.
  rewrite app_assoc.
  eapply runs_bind; [by apply runs_prepare_boot_iso|].
  intros [] w1 H1.
  eapply runs_bind_silent with (P := λ n w', n = node w1 ∧ w' = w1);
    [by apply runs_gets|].
  intros n w' [-> ->].
  apply runs_dict_item_bind. intros _.
  assert (Hiso : dict_get (driver_internal_info (node w1)) "irmc_boot_iso"
                 = chosen_boot_iso E (node w) di).
  { rewrite H1. unfold dict_get, with_boot_iso. cbn.
    by rewrite lookup_insert_eq. }
  rewrite Hiso.
  change (attach_boot_iso_calls E (chosen_boot_iso E (node w) di))
    with (vmedia_setup_calls E (node w1) (chosen_boot_iso E (node w) di) None
          ++ [EvSetBootDevice CDROM true]).
  eapply runs_bind; [apply runs_setup_vmedia_for_boot|].
  unfold same_node. intros [] w2 H2.
  eapply runs_conseq; [apply runs_node_set_boot_device|].
  unfold same_node. intros [] w3 ->. congruence.
Qed.








(** The ramdisk preparation of the spec's scenario, run on node N1. *)
Example prepare_ramdisk_on_N1 :
  (IRMCVirtualMediaBoot.prepare_ramdisk env0 ∅ w_deploying).1 = Ok tt
  ∧ trace (IRMCVirtualMediaBoot.prepare_ramdisk env0 ∅ w_deploying).2
    = [EvFetch (VStr "http://img/deploy.iso")
         "/remote_image_share_root/deploy-N1.iso";
       EvScci UNMOUNT_CD; EvScci UNMOUNT_FD;
       EvCreateVfatImage {[ "BOOTIF" := VStr "aa:bb:cc:dd:ee:ff" ]};
       EvCopyFile "/remote_image_share_root/image-N1.img";
       EvScci (fd_set_params env0 "image-N1.img"); EvScci MOUNT_FD;
       EvScci (cd_set_params env0 (VStr "deploy-N1.iso")); EvScci MOUNT_CD;
       EvSetBootDevice CDROM false].
Proof. split; vm_compute; reflexivity. Qed.

(** The instance preparation of the spec's scenario, run on node N1. *)
Example prepare_instance_on_N1 :
  (IRMCVirtualMediaBoot.prepare_instance env0 w_deploying).1 = Ok tt
  ∧ trace (IRMCVirtualMediaBoot.prepare_instance env0 w_deploying).2
    = [EvScci UNMOUNT_CD; EvScci UNMOUNT_FD;
       EvUnlink "share/image-N1.img"; EvUnlink "share/deploy-N1.iso";
       EvGetImageProperties (VStr "http://img/os.qcow2");
       EvCreateBootIso "/remote_image_share_root/boot-N1.iso"
         (VStr "http://img/vmlinuz") (VStr "http://img/initrd")
         "file:///remote_image_share_root/deploy-N1.iso"
         (VStr "uuid-123") "nofb nomodeset vga=normal" (VStr "bios");
       EvNodeSave
         (node0 DEPLOYING {[ "root_uuid_or_disk_id" := VStr "uuid-123";
                             "irmc_boot_iso" := VStr "boot-N1.iso" ]});
       EvScci UNMOUNT_CD; EvScci UNMOUNT_FD;
       EvScci (cd_set_params env0 (VStr "boot-N1.iso")); EvScci MOUNT_CD;
       EvSetBootDevice CDROM true].
Proof. split; vm_compute; reflexivity. Qed.

(** ** The mounted-share precondition *)

Lemma mount_blind_ret {A} (a : A) : mount_blind (mret a).
Proof. done. Qed.

Lemma mount_blind_raise {A} e : mount_blind (@raise A e).
Proof. done. Qed.

Lemma mount_blind_bind {A B} (m : M A) (f : A → M B) :
  mount_blind m → (∀ a, mount_blind (f a)) → mount_blind (m ≫= f).
Proof.
  intros Hm Hf ms w. unfold mbind, M_bind. rewrite Hm.
  destruct (m w) as [[a|e] w']; cbn; [apply Hf|done].
Qed.

Lemma mount_blind_try_except {A} (body : M A) handler :
  mount_blind body →
  (∀ e h, handler e = Some h → mount_blind h) →
  mount_blind (try_except body handler).
Proof.
  intros Hb Hh ms w. unfold try_except. rewrite Hb.
  destruct (body w) as [[a|e] w']; cbn; [done|].
  destruct (handler e) as [h|] eqn:He; [by apply (Hh e h)|done].
Qed.

Lemma mount_blind_gets {A} (f : World → A) :
  (∀ ms w, f (set_mounts ms w) = f w) → mount_blind (gets f).
Proof. intros Hf ms w. unfold gets. cbn. by rewrite Hf. Qed.

Lemma mount_blind_modify (f : World → World) :
  (∀ ms w, f (set_mounts ms w) = set_mounts ms (f w)) →
  mount_blind (modify f).
Proof. intros Hf ms w. unfold modify. cbn. by rewrite Hf. Qed.

Lemma mount_blind_call ev : mount_blind (call ev).
Proof. done. Qed.

Create HintDb mount_blind.

#[local] Hint Resolve mount_blind_ret mount_blind_raise mount_blind_call
  : mount_blind.

(** Walks through a computation built from the combinators above. *)
Ltac mount_blind_step :=
  match goal with
  | |- mount_blind (_ ≫= _) => apply mount_blind_bind; [|intros ?]
  | |- mount_blind (try_except _ _) =>
      apply mount_blind_try_except;
        [|intros [] ? ?; simplify_eq; auto with mount_blind]
  | |- mount_blind (gets _) => apply mount_blind_gets; reflexivity
  | |- mount_blind (modify _) => apply mount_blind_modify; reflexivity
  | |- mount_blind (if ?b then _ else _) => destruct b
  | |- mount_blind (match ?x with _ => _ end) => destruct x
  | |- mount_blind _ => solve [auto with mount_blind]
  end.

Ltac mount_blind_auto := repeat mount_blind_step.

Lemma mount_blind_irmc_client cmd : mount_blind (irmc_client cmd).
Proof. unfold irmc_client. mount_blind_auto. Qed.

Lemma mount_blind_get_irmc_client E : mount_blind (get_irmc_client E).
Proof. unfold get_irmc_client. mount_blind_auto. Qed.

#[local] Hint Resolve mount_blind_irmc_client mount_blind_get_irmc_client
  : mount_blind.

Lemma mount_blind_detach_virtual_cd E : mount_blind (_detach_virtual_cd E).
Proof. unfold _detach_virtual_cd. mount_blind_auto. Qed.

Lemma mount_blind_detach_virtual_fd E : mount_blind (_detach_virtual_fd E).
Proof. unfold _detach_virtual_fd. mount_blind_auto. Qed.

Lemma mount_blind_attach_virtual_cd E iso :
  mount_blind (_attach_virtual_cd E iso).
Proof. unfold _attach_virtual_cd. mount_blind_auto. Qed.

Lemma mount_blind_attach_virtual_fd E floppy :
  mount_blind (_attach_virtual_fd E floppy).
Proof. unfold _attach_virtual_fd. mount_blind_auto. Qed.

Lemma mount_blind_remove_share_file E name :
  mount_blind (_remove_share_file E name).
Proof.
  unfold _remove_share_file, unlink_without_raise, os_unlink.
  mount_blind_auto.
Qed.

Lemma mount_blind_prepare_floppy_image E params :
  mount_blind (_prepare_floppy_image E params).
Proof.
  unfold _prepare_floppy_image, images_create_vfat_image, shutil_copyfile.
  mount_blind_auto.
Qed.

#[local] Hint Resolve mount_blind_detach_virtual_cd
  mount_blind_detach_virtual_fd mount_blind_attach_virtual_cd
  mount_blind_attach_virtual_fd mount_blind_remove_share_file
  mount_blind_prepare_floppy_image : mount_blind.

Lemma mount_blind_setup_vmedia_for_boot E iso parameters :
  mount_blind (_setup_vmedia_for_boot E iso parameters).
Proof. unfold _setup_vmedia_for_boot. mount_blind_auto. Qed.

Lemma mount_blind_cleanup_vmedia_boot E : mount_blind (_cleanup_vmedia_boot E).
Proof. unfold _cleanup_vmedia_boot. mount_blind_auto. Qed.

Lemma mount_blind_node_save : mount_blind node_save.
Proof. unfold node_save. mount_blind_auto. Qed.

Lemma mount_blind_node_set_boot_device d p :
  mount_blind (node_set_boot_device d p).
Proof. unfold node_set_boot_device. mount_blind_auto. Qed.

Lemma mount_blind_images_fetch href path : mount_blind (images_fetch href path).
Proof. unfold images_fetch. mount_blind_auto. Qed.

#[local] Hint Resolve mount_blind_setup_vmedia_for_boot
  mount_blind_cleanup_vmedia_boot mount_blind_node_save
  mount_blind_node_set_boot_device mount_blind_images_fetch : mount_blind.

Lemma mount_blind_setup_deploy_iso E options :
  mount_blind (_setup_deploy_iso E options).
Proof. unfold _setup_deploy_iso, dict_item. mount_blind_auto. Qed.

Lemma mount_blind_parse_deploy_info E : mount_blind (_parse_deploy_info E).
Proof.
  unfold _parse_deploy_info, _parse_driver_info, _parse_instance_info,
    check_for_missing_params, dict_item, path_join, os_path_isfile.
  mount_blind_auto.
Qed.

#[local] Hint Resolve mount_blind_setup_deploy_iso
  mount_blind_parse_deploy_info : mount_blind.

Lemma mount_blind_prepare_boot_iso E root_uuid :
  mount_blind (_prepare_boot_iso E root_uuid).
Proof.
  unfold _prepare_boot_iso, images_get_image_properties,
    images_create_boot_iso, py_or, dict_item.
  mount_blind_auto.
Qed.

#[local] Hint Resolve mount_blind_prepare_boot_iso : mount_blind.

Lemma mount_blind_configure_vmedia_boot E root_uuid :
  mount_blind (IRMCVirtualMediaBoot._configure_vmedia_boot E root_uuid).
Proof.
  unfold IRMCVirtualMediaBoot._configure_vmedia_boot, dict_item.
  mount_blind_auto.
Qed.

#[local] Hint Resolve mount_blind_configure_vmedia_boot : mount_blind.

Lemma mount_blind_prepare_ramdisk E params :
  mount_blind (IRMCVirtualMediaBoot.prepare_ramdisk E params).
Proof. unfold IRMCVirtualMediaBoot.prepare_ramdisk. mount_blind_auto. Qed.

Lemma mount_blind_clean_up_ramdisk E :
  mount_blind (IRMCVirtualMediaBoot.clean_up_ramdisk E).
Proof. unfold IRMCVirtualMediaBoot.clean_up_ramdisk. mount_blind_auto. Qed.

Lemma mount_blind_prepare_instance E :
  mount_blind (IRMCVirtualMediaBoot.prepare_instance E).
Proof.
  unfold IRMCVirtualMediaBoot.prepare_instance, dict_item. mount_blind_auto.
Qed.

Lemma mount_blind_clean_up_instance E :
  mount_blind (IRMCVirtualMediaBoot.clean_up_instance E).
Proof. unfold IRMCVirtualMediaBoot.clean_up_instance. mount_blind_auto. Qed.

(** C1, counterexample.  With the share not mounted, each of the four
    entry points returns normally on node N1, after its usual calls. *)
Lemma entry_points_run_on_unmounted_share :
  ¬ refuses_unmounted_share env0
      (IRMCVirtualMediaBoot.prepare_ramdisk env0 ∅) w_unmounted
  ∧ ¬ refuses_unmounted_share env0
        (IRMCVirtualMediaBoot.clean_up_ramdisk env0) w_unmounted
  ∧ ¬ refuses_unmounted_share env0
        (IRMCVirtualMediaBoot.prepare_instance env0) w_unmounted
  ∧ ¬ refuses_unmounted_share env0
        (IRMCVirtualMediaBoot.clean_up_instance env0) w_unmounted.
Proof.
  assert (Hn : remote_image_share_root (CONF env0) ∉ mounts (share w_unmounted)).
  { apply (bool_decide_unpack _). vm_compute. exact I. }
  unfold refuses_unmounted_share.
  split_and!; intros H; destruct (H Hn) as [Hr _];
    vm_compute in Hr; discriminate Hr.
Qed.

(** C1, amended.  The mount of the share is checked by
    [check_share_fs_mounted], which the constructor of the driver and
    [validate] call first: when the share root is a directory that is not
    a mount point, both fail with [IRMCSharedFileSystemNotMounted] before
    any call is made and leave the world as it was.  The four phase entry
    points do not consult the mount points: each runs the same way, with
    the same result and the same calls, whatever is mounted. *)
Theorem share_mount_is_checked_by_init_and_validate E w :
  remote_image_share_root (CONF E) ∈ dirs (share w) →
  remote_image_share_root (CONF E) ∉ mounts (share w) →
  IRMCVirtualMediaBoot.__init__ E w
  = (Raise (IRMCSharedFileSystemNotMounted (remote_image_share_root (CONF E))),
     w)
  ∧ IRMCVirtualMediaBoot.validate E w
    = (Raise (IRMCSharedFileSystemNotMounted (remote_image_share_root (CONF E))),
       w)
  ∧ (∀ ramdisk_params,
       mount_blind (IRMCVirtualMediaBoot.prepare_ramdisk E ramdisk_params))
  ∧ mount_blind (IRMCVirtualMediaBoot.clean_up_ramdisk E)
  ∧ mount_blind (IRMCVirtualMediaBoot.prepare_instance E)
  ∧ mount_blind (IRMCVirtualMediaBoot.clean_up_instance E).
Proof.
  intros Hdir Hmount.
  assert (Hcheck : check_share_fs_mounted E w
                   = (Raise (IRMCSharedFileSystemNotMounted
                               (remote_image_share_root (CONF E))), w)).
  { unfold check_share_fs_mounted, _parse_config_option, os_path_isdir,
      os_path_ismount. unfold_monad.
    rewrite (bool_decide_eq_true_2 _ Hdir). cbn.
    by rewrite (bool_decide_eq_false_2 _ Hmount). }
  split_and!.
  - unfold IRMCVirtualMediaBoot.__init__, mbind, M_bind. by rewrite Hcheck.
  - unfold IRMCVirtualMediaBoot.validate, mbind, M_bind. by rewrite Hcheck.
  - apply mount_blind_prepare_ramdisk.
  - apply mount_blind_clean_up_ramdisk.
  - apply mount_blind_prepare_instance.
  - apply mount_blind_clean_up_instance.
Qed.

Lemma share_mount_is_checked_witness :
  (remote_image_share_root (CONF env0) ∈ dirs (share w_unmounted))
  ∧ (remote_image_share_root (CONF env0) ∉ mounts (share w_unmounted))
  ∧ IRMCVirtualMediaBoot.__init__ env0 w_unmounted
    = (Raise (IRMCSharedFileSystemNotMounted "/remote_image_share_root"),
       w_unmounted)
  ∧ IRMCVirtualMediaBoot.validate env0 w_unmounted
    = (Raise (IRMCSharedFileSystemNotMounted "/remote_image_share_root"),
       w_unmounted).
Proof.
  assert (Hd : remote_image_share_root (CONF env0) ∈ dirs (share w_unmounted)).
  { apply (bool_decide_unpack _). vm_compute. exact I. }
  assert (Hn : remote_image_share_root (CONF env0) ∉ mounts (share w_unmounted)).
  { apply (bool_decide_unpack _). vm_compute. exact I. }
  split; [exact Hd|]. split; [exact Hn|].
  destruct (share_mount_is_checked_by_init_and_validate env0 w_unmounted Hd Hn)
    as (Hi & Hv & _).
  split; [exact Hi|exact Hv].
Defined.

(** ** Cleaning up twice *)

Lemma bind_ok {A B} (m : M A) (f : A → M B) w a w' :
  m w = (Ok a, w') → (m ≫= f) w = f a w'.
Proof. intros Hm. unfold mbind, M_bind. by rewrite Hm. Qed.

Lemma detach_virtual_cd_accepted E w :
  irmc_client_failure (EXT E) (driver_info (node w)) = None →
  faults w (length (trace w)) = false →
  _detach_virtual_cd E w
  = (Ok tt, with_irmc (scci_effect UNMOUNT_CD)
              (with_trace (trace w ++ [EvScci UNMOUNT_CD]) w)).
Proof.
  intros Hc Hf. unfold _detach_virtual_cd, get_irmc_client, irmc_client.
  unfold_monad. by rewrite Hc, Hf.
Qed.

Lemma detach_virtual_fd_accepted E w :
  irmc_client_failure (EXT E) (driver_info (node w)) = None →
  faults w (length (trace w)) = false →
  _detach_virtual_fd E w
  = (Ok tt, with_irmc (scci_effect UNMOUNT_FD)
              (with_trace (trace w ++ [EvScci UNMOUNT_FD]) w)).
Proof.
  intros Hc Hf. unfold _detach_virtual_fd, get_irmc_client, irmc_client.
  unfold_monad. by rewrite Hc, Hf.
Qed.

(** Removal never raises.  It leaves everything but the files alone, takes
    away at most the file it was given, does nothing when that file is
    missing, and has removed it when the unlink met no I/O error. *)
Lemma remove_share_file_run E name w :
  ∃ s',
    _remove_share_file E name w
    = (Ok tt, with_share (λ _, s')
                (with_trace (trace w ++ [EvUnlink (removed_path E name)]) w))
    ∧ dirs s' = dirs (share w)
    ∧ mounts s' = mounts (share w)
    ∧ files s' ⊆ files (share w)
    ∧ (removed_path E name ∉ files (share w) → s' = share w)
    ∧ (faults w (length (trace w)) = false →
       removed_path E name ∉ files s').
Proof.
  unfold _remove_share_file, unlink_without_raise, os_unlink, removed_path.
  unfold_monad.
  set (p := os_path_join (remote_image_share_name (CONF E)) name).
  case_bool_decide as Hin; cbn.
  - destruct (faults w (length (trace w))) eqn:Hf; cbn.
    + exists (share w). split; [done|]. split_and!; try done.
    + exists (del_file p (share w)). split; [done|]. cbn.
      split_and!; try done.
      * by apply subseteq_difference_l.
      * intros _ [_ Hp]%elem_of_difference. by apply Hp, elem_of_singleton.
  - exists (share w). split; [done|]. split_and!; done.
Qed.

(** An accepted run of [_cleanup_vmedia_boot], state by state. *)
Lemma cleanup_vmedia_boot_accepted E w :
  irmc_client_failure (EXT E) (driver_info (node w)) = None →
  faults w (length (trace w)) = false →
  faults w (length (trace w) + 1) = false →
  ∃ s',
    _cleanup_vmedia_boot E w
    = (Ok tt,
       {| node := node w; stored := stored w; share := s';
          irmc := ejected (irmc w);
          trace := trace w ++ cleanup_calls E (node w);
          faults := faults w |})
    ∧ dirs s' = dirs (share w)
    ∧ mounts s' = mounts (share w)
    ∧ files s' ⊆ files (share w)
    ∧ (removed_path E (_get_floppy_image_name (node w)) ∉ files (share w) →
       removed_path E (_get_deploy_iso_name (node w)) ∉ files (share w) →
       s' = share w)
    ∧ (faults w (length (trace w) + 2) = false →
       removed_path E (_get_floppy_image_name (node w)) ∉ files s')
    ∧ (faults w (length (trace w) + 3) = false →
       removed_path E (_get_deploy_iso_name (node w)) ∉ files s').
Proof.
  intros Hc F0 F1. unfold _cleanup_vmedia_boot.
  rewrite (bind_ok _ _ _ _ _ (detach_virtual_cd_accepted E w Hc F0)).
  set (wa := with_irmc _ _).
  assert (F1a : faults wa (length (trace wa)) = false).
  { subst wa. cbn. by rewrite length_app. }
  rewrite (bind_ok _ _ _ _ _ (detach_virtual_fd_accepted E wa Hc F1a)).
  set (wb := with_irmc _ _).
  rewrite (bind_ok (gets node) _ wb (node wb) wb eq_refl).
  destruct (remove_share_file_run E (_get_floppy_image_name (node wb)) wb)
    as (s1 & R1 & D1 & M1 & S1 & A1 & G1).
  rewrite (bind_ok _ _ _ _ _ R1).
  set (wc := with_share _ _).
  destruct (remove_share_file_run E (_get_deploy_iso_name (node wb)) wc)
    as (s2 & R2 & D2 & M2 & S2 & A2 & G2).
  rewrite R2. exists s2. subst wa wb wc. cbn in *.
  rewrite !length_app in *. cbn [length] in *.
  rewrite <- !Nat.add_assoc in *. cbn [Nat.add] in *.
  split.
  { unfold cleanup_calls, with_share, with_trace. cbn.
    by rewrite <- !app_assoc. }
  split; [congruence|]. split; [congruence|]. split; [by etrans|].
  split_and!.
  - intros Hp1 Hp2. rewrite A2; rewrite A1; done.
  - intros Hf Hin. apply (G1 Hf). by apply S2.
  - exact G2.
Qed.

(** A run of [_cleanup_vmedia_boot] that returns had a client and two
    accepted ejects. *)
Lemma cleanup_vmedia_boot_returned E w :
  (_cleanup_vmedia_boot E w).1 = Ok tt →
  irmc_client_failure (EXT E) (driver_info (node w)) = None
  ∧ faults w (length (trace w)) = false
  ∧ faults w (length (trace w) + 1) = false.
Proof.
  unfold _cleanup_vmedia_boot, _detach_virtual_cd, _detach_virtual_fd,
    get_irmc_client, irmc_client.
  unfold_monad.
  run_cases; cbn; intros Hr; try discriminate Hr;
    cbn in *; rewrite ?length_app in *; cbn [length] in *; done.
Qed.

Lemma ejected_twice c : ejected (ejected c) = ejected c.
Proof. done. Qed.

(** [clean_up_ramdisk] twice: the accepted second run changes nothing. *)
Lemma clean_up_ramdisk_twice E w :
  (IRMCVirtualMediaBoot.clean_up_ramdisk E w).1 = Ok tt →
  faults w (length (trace w) + 2) = false →
  faults w (length (trace w) + 3) = false →
  faults w (length (trace w) + 4) = false →
  faults w (length (trace w) + 5) = false →
  let w1 := (IRMCVirtualMediaBoot.clean_up_ramdisk E w).2 in
  let w2 := (IRMCVirtualMediaBoot.clean_up_ramdisk E w1).2 in
  (IRMCVirtualMediaBoot.clean_up_ramdisk E w1).1 = Ok tt
  ∧ node w2 = node w1 ∧ stored w2 = stored w1
  ∧ share w2 = share w1 ∧ irmc w2 = irmc w1.
Proof.
  unfold IRMCVirtualMediaBoot.clean_up_ramdisk.
  intros Hr F2 F3 F4 F5.
  destruct (cleanup_vmedia_boot_returned E w Hr) as (Hc & F0 & F1).
  destruct (cleanup_vmedia_boot_accepted E w Hc F0 F1)
    as (s1 & R1 & _ & _ & _ & _ & G1 & G2).
  rewrite R1. cbn zeta. cbn [snd].
  set (w1 := {| node := node w; share := s1 |}).
  assert (L1 : length (trace w1) = length (trace w) + 4).
  { subst w1. cbn. by rewrite length_app. }
  destruct (cleanup_vmedia_boot_accepted E w1) as (s2 & R2 & _ & _ & _ & A & _).
  { exact Hc. }
  { rewrite L1. exact F4. }
  { rewrite L1, <- Nat.add_assoc. exact F5. }
  rewrite R2. cbn. split; [done|]. split; [done|]. split; [done|].
  split; [|done]. apply A; [by apply G1|by apply G2].
Qed.

Lemma node_save_accepted w :
  faults w (length (trace w)) = false →
  node_save w
  = (Ok tt, with_stored (node w)
              (with_trace (trace w ++ [EvNodeSave (node w)]) w)).
Proof. intros Hf. unfold node_save. unfold_monad. by rewrite Hf. Qed.

Lemma node_save_refused w :
  faults w (length (trace w)) = true →
  (node_save w).1 = Raise (CollaboratorError "node.save").
Proof. intros Hf. unfold node_save. unfold_monad. by rewrite Hf. Qed.

(** [clean_up_instance] up to its save: the boot ISO is unlinked and the
    two fields are popped. *)
Lemma clean_up_instance_after_removal E w :
  ∃ s0,
    IRMCVirtualMediaBoot.clean_up_instance E w
    = (node_save ≫= λ _, _cleanup_vmedia_boot E)
        {| node := cleared (node w); stored := stored w; share := s0;
           irmc := irmc w;
           trace := trace w
                    ++ [EvUnlink (removed_path E (_get_boot_iso_name (node w)))];
           faults := faults w |}
    ∧ dirs s0 = dirs (share w)
    ∧ mounts s0 = mounts (share w)
    ∧ files s0 ⊆ files (share w)
    ∧ (removed_path E (_get_boot_iso_name (node w)) ∉ files (share w) →
       s0 = share w)
    ∧ (faults w (length (trace w)) = false →
       removed_path E (_get_boot_iso_name (node w)) ∉ files s0).
Proof.
  destruct (remove_share_file_run E (_get_boot_iso_name (node w)) w)
    as (s0 & R0 & Hrest).
  exists s0. split; [|exact Hrest].
  unfold IRMCVirtualMediaBoot.clean_up_instance.
  rewrite (bind_ok (gets node) _ w (node w) w eq_refl).
  rewrite (bind_ok _ _ _ _ _ R0).
  repeat (erewrite (bind_ok (modify _)); [|reflexivity]).
  reflexivity.
Qed.

(** An accepted run of [clean_up_instance], state by state. *)
Lemma clean_up_instance_accepted E w :
  irmc_client_failure (EXT E) (driver_info (node w)) = None →
  faults w (length (trace w) + 1) = false →
  faults w (length (trace w) + 2) = false →
  faults w (length (trace w) + 3) = false →
  ∃ s',
    IRMCVirtualMediaBoot.clean_up_instance E w
    = (Ok tt,
       {| node := cleared (node w); stored := cleared (node w); share := s';
          irmc := ejected (irmc w);
          trace := trace w ++ clean_up_instance_calls E (node w);
          faults := faults w |})
    ∧ files s' ⊆ files (share w)
    ∧ (removed_path E (_get_boot_iso_name (node w)) ∉ files (share w) →
       removed_path E (_get_floppy_image_name (node w)) ∉ files (share w) →
       removed_path E (_get_deploy_iso_name (node w)) ∉ files (share w) →
       s' = share w)
    ∧ (faults w (length (trace w)) = false →
       removed_path E (_get_boot_iso_name (node w)) ∉ files s')
    ∧ (faults w (length (trace w) + 4) = false →
       removed_path E (_get_floppy_image_name (node w)) ∉ files s')
    ∧ (faults w (length (trace w) + 5) = false →
       removed_path E (_get_deploy_iso_name (node w)) ∉ files s').
Proof.
  intros Hc F1 F2 F3.
  destruct (clean_up_instance_after_removal E w)
    as (s0 & -> & D0 & M0 & S0 & A0 & G0).
  set (wa := {| node := cleared (node w); share := s0 |}).
  assert (La : length (trace wa) = length (trace w) + 1).
  { subst wa. cbn. by rewrite length_app. }
  rewrite (bind_ok _ _ _ _ _ (node_save_accepted wa
             ltac:(rewrite La; exact F1))).
  set (wb := with_stored _ _).
  assert (Lb : length (trace wb) = length (trace w) + 2).
  { subst wb wa. cbn. rewrite !length_app. cbn. lia. }
  destruct (cleanup_vmedia_boot_accepted E wb)
    as (s1 & R1 & _ & _ & S1 & A1 & G1 & G2).
  { exact Hc. }
  { rewrite Lb. exact F2. }
  { rewrite Lb, <- Nat.add_assoc. exact F3. }
  rewrite R1. exists s1. rewrite Lb, <- !Nat.add_assoc in *.
  subst wb wa. cbn in *. split.
  { unfold clean_up_instance_calls. by rewrite <- !app_assoc. }
  split; [by etrans|]. split_and!.
  - intros H0 H1 H2. rewrite <- (A0 H0) in *. by apply A1.
  - intros Hf Hin. apply (G0 Hf). by apply S1.
  - exact G1.
  - exact G2.
Qed.

(** A run of [clean_up_instance] that returns had its save accepted, a
    client and two accepted ejects. *)
Lemma clean_up_instance_returned E w :
  (IRMCVirtualMediaBoot.clean_up_instance E w).1 = Ok tt →
  irmc_client_failure (EXT E) (driver_info (node w)) = None
  ∧ faults w (length (trace w) + 1) = false
  ∧ faults w (length (trace w) + 2) = false
  ∧ faults w (length (trace w) + 3) = false.
Proof.
  destruct (clean_up_instance_after_removal E w) as (s0 & -> & _).
  set (wa := {| node := cleared (node w); share := s0 |}).
  assert (La : length (trace wa) = length (trace w) + 1).
  { subst wa. cbn. by rewrite length_app. }
  destruct (faults w (length (trace w) + 1)) eqn:F1.
  { intros Hr. exfalso.
    pose proof (node_save_refused wa ltac:(rewrite La; exact F1)) as Hs.
    unfold mbind, M_bind in Hr. destruct (node_save wa) as [[[]|e] w'];
      cbn in *; discriminate. }
  rewrite (bind_ok _ _ _ _ _ (node_save_accepted wa
             ltac:(rewrite La; exact F1))).
  set (wb := with_stored _ _).
  assert (Lb : length (trace wb) = length (trace w) + 2).
  { subst wb wa. cbn. rewrite !length_app. cbn. lia. }
  intros Hr. destruct (cleanup_vmedia_boot_returned E wb Hr) as (Hc & F2 & F3).
  rewrite Lb, <- ?Nat.add_assoc in *. done.
Qed.

Lemma cleared_twice n : cleared (cleared n) = cleared n.
Proof.
  unfold cleared, set_driver_internal_info, dict_pop. cbn. f_equal.
  apply map_eq. intros k.
  destruct (decide (k = "root_uuid_or_disk_id")) as [->|H1];
    [by rewrite !lookup_delete_eq|].
  destruct (decide (k = "irmc_boot_iso")) as [->|H2].
  - rewrite !(lookup_delete_ne _ "root_uuid_or_disk_id") by done.
    by rewrite !lookup_delete_eq.
  - rewrite !lookup_delete_ne by done. done.
Qed.

(** [clean_up_instance] twice: the accepted second run changes nothing. *)
Lemma clean_up_instance_twice E w :
  (IRMCVirtualMediaBoot.clean_up_instance E w).1 = Ok tt →
  faults w (length (trace w)) = false →
  faults w (length (trace w) + 4) = false →
  faults w (length (trace w) + 5) = false →
  faults w (length (trace w) + 7) = false →
  faults w (length (trace w) + 8) = false →
  faults w (length (trace w) + 9) = false →
  let w1 := (IRMCVirtualMediaBoot.clean_up_instance E w).2 in
  let w2 := (IRMCVirtualMediaBoot.clean_up_instance E w1).2 in
  (IRMCVirtualMediaBoot.clean_up_instance E w1).1 = Ok tt
  ∧ node w2 = node w1 ∧ stored w2 = stored w1
  ∧ share w2 = share w1 ∧ irmc w2 = irmc w1.
Proof.
  intros Hr F0 F4 F5 F7 F8 F9.
  destruct (clean_up_instance_returned E w Hr) as (Hc & F1 & F2 & F3).
  destruct (clean_up_instance_accepted E w Hc F1 F2 F3)
    as (s1 & R1 & _ & _ & G0 & G1 & G2).
  rewrite R1. cbn zeta. cbn [snd].
  set (w1 := {| node := cleared (node w); share := s1 |}).
  assert (L1 : length (trace w1) = length (trace w) + 6).
  { subst w1. cbn. by rewrite length_app. }
  destruct (clean_up_instance_accepted E w1) as (s2 & R2 & _ & A & _).
  { exact Hc. }
  { rewrite L1, <- Nat.add_assoc. exact F7. }
  { rewrite L1, <- Nat.add_assoc. exact F8. }
  { rewrite L1, <- Nat.add_assoc. exact F9. }
  rewrite R2. subst w1. cbn [fst snd node stored share irmc].
  rewrite cleared_twice. split; [done|]. split; [done|]. split; [done|].
  split; [|done]. apply A; [by apply G0|by apply G1|by apply G2].
Qed.

(** C6, counterexample.  A second cleanup raises [IRMCOperationError] when
    the controller refuses its eject, for the ramdisk and for the
    instance; and when the first [clean_up_ramdisk] met an I/O error on a
    removal, which it swallowed, the second one removes the file that the
    first one left: the end states differ. *)
Lemma second_cleanup_can_raise_or_remove_more :
  ¬ cleanup_twice_as_once (IRMCVirtualMediaBoot.clean_up_ramdisk env0)
      w_eject_refused
  ∧ ¬ cleanup_twice_as_once (IRMCVirtualMediaBoot.clean_up_ramdisk env0)
        w_unlink_error
  ∧ ¬ cleanup_twice_as_once (IRMCVirtualMediaBoot.clean_up_instance env0)
        w_instance_eject_refused.
Proof.
  unfold cleanup_twice_as_once. split_and!.
  - intros [Hr _]. vm_compute in Hr. discriminate Hr.
  - intros (_ & _ & Hs & _).
    assert (Hin : "share/deploy-N1.iso" ∈ files (share
              (IRMCVirtualMediaBoot.clean_up_ramdisk env0 w_unlink_error).2)).
    { apply (bool_decide_unpack _). vm_compute. exact I. }
    rewrite <- Hs in Hin. revert Hin.
    apply (bool_decide_unpack _). vm_compute. exact I.
  - intros [Hr _]. vm_compute in Hr. discriminate Hr.
Qed.

(** C6, amended.  Let a first [clean_up_ramdisk] (or [clean_up_instance])
    return, its removals having met no I/O error.  A second one in a row,
    if the controller accepts its two ejects (and the node store its save,
    for [clean_up_instance]), returns as well and leaves the node in
    memory, the node as saved, the share and the controller as the first
    one left them.  The removal of an artifact never raises: a missing
    file and an I/O error of the unlink both end in a normal return. *)
Theorem cleanup_twice_in_a_row E w :
  ((IRMCVirtualMediaBoot.clean_up_ramdisk E w).1 = Ok tt →
   faults w (length (trace w) + 2) = false →
   faults w (length (trace w) + 3) = false →
   faults w (length (trace w) + 4) = false →
   faults w (length (trace w) + 5) = false →
   let w1 := (IRMCVirtualMediaBoot.clean_up_ramdisk E w).2 in
   let w2 := (IRMCVirtualMediaBoot.clean_up_ramdisk E w1).2 in
   (IRMCVirtualMediaBoot.clean_up_ramdisk E w1).1 = Ok tt
   ∧ node w2 = node w1 ∧ stored w2 = stored w1
   ∧ share w2 = share w1 ∧ irmc w2 = irmc w1)
  ∧ ((IRMCVirtualMediaBoot.clean_up_instance E w).1 = Ok tt →
     faults w (length (trace w)) = false →
     faults w (length (trace w) + 4) = false →
     faults w (length (trace w) + 5) = false →
     faults w (length (trace w) + 7) = false →
     faults w (length (trace w) + 8) = false →
     faults w (length (trace w) + 9) = false →
     let w1 := (IRMCVirtualMediaBoot.clean_up_instance E w).2 in
     let w2 := (IRMCVirtualMediaBoot.clean_up_instance E w1).2 in
     (IRMCVirtualMediaBoot.clean_up_instance E w1).1 = Ok tt
     ∧ node w2 = node w1 ∧ stored w2 = stored w1
     ∧ share w2 = share w1 ∧ irmc w2 = irmc w1)
  ∧ (∀ share_filename, (_remove_share_file E share_filename w).1 = Ok tt).
Proof.
  split_and!.
  - apply clean_up_ramdisk_twice.
  - apply clean_up_instance_twice.
  - intros name. destruct (remove_share_file_run E name w) as (s' & -> & _).
    done.
Qed.

Lemma cleanup_twice_in_a_row_witness :
  ((IRMCVirtualMediaBoot.clean_up_ramdisk env0 w_leftovers).1 = Ok tt
   ∧ let w1 := (IRMCVirtualMediaBoot.clean_up_ramdisk env0 w_leftovers).2 in
     let w2 := (IRMCVirtualMediaBoot.clean_up_ramdisk env0 w1).2 in
     (IRMCVirtualMediaBoot.clean_up_ramdisk env0 w1).1 = Ok tt
     ∧ node w2 = node w1 ∧ stored w2 = stored w1
     ∧ share w2 = share w1 ∧ irmc w2 = irmc w1)
  ∧ ((IRMCVirtualMediaBoot.clean_up_instance env0 w_leftovers).1 = Ok tt
     ∧ let w1 := (IRMCVirtualMediaBoot.clean_up_instance env0 w_leftovers).2 in
       let w2 := (IRMCVirtualMediaBoot.clean_up_instance env0 w1).2 in
       (IRMCVirtualMediaBoot.clean_up_instance env0 w1).1 = Ok tt
       ∧ node w2 = node w1 ∧ stored w2 = stored w1
       ∧ share w2 = share w1 ∧ irmc w2 = irmc w1).
Proof.
  destruct (cleanup_twice_in_a_row env0 w_leftovers) as (Hramdisk & Hinstance & _).
  split.
  - split; [vm_compute; reflexivity|].
    apply Hramdisk; vm_compute; reflexivity.
  - split; [vm_compute; reflexivity|].
    apply Hinstance; vm_compute; reflexivity.
Defined.

(** * Further properties of the driver *)

(** ** Names and paths of the artifacts *)

Lemma string_length_app (a b : string) :
  String.length (a +:+ b) = String.length a + String.length b.
Proof. induction a as [|c a IH]; simpl; [done|]. by rewrite IH. Qed.

Lemma string_app_inv_tail (a b s : string) : a +:+ s = b +:+ s → a = b.
Proof.
  revert b. induction a as [|c a IH]; intros [|d b] H; simpl in H.
  - done.
  - apply (f_equal String.length) in H.
    rewrite ?string_length_app in H. simpl in H.
    rewrite ?string_length_app in H. lia.
  - apply (f_equal String.length) in H.
    rewrite ?string_length_app in H. simpl in H.
    rewrite ?string_length_app in H. lia.
  - injection H as -> H. f_equal. by apply IH.
Qed.

Lemma artifact_names_do_not_collide_aux (n n' : Node) :
  _get_deploy_iso_name n ≠ _get_boot_iso_name n'
  ∧ _get_deploy_iso_name n ≠ _get_floppy_image_name n'
  ∧ _get_boot_iso_name n ≠ _get_floppy_image_name n'
  ∧ (_get_deploy_iso_name n = _get_deploy_iso_name n' → uuid n = uuid n')
  ∧ (_get_boot_iso_name n = _get_boot_iso_name n' → uuid n = uuid n')
  ∧ (_get_floppy_image_name n = _get_floppy_image_name n' → uuid n = uuid n').
Proof.
  unfold _get_deploy_iso_name, _get_boot_iso_name, _get_floppy_image_name.
  split_and!; try (cbn; intros [=]; done).
  - intros H%(inj (String.app "deploy-")). by apply string_app_inv_tail in H.
  - intros H%(inj (String.app "boot-")). by apply string_app_inv_tail in H.
  - intros H%(inj (String.app "image-")). by apply string_app_inv_tail in H.
Qed.

(** X1.  The three artifact names never collide: names of different roles
    differ, for one node and across nodes, and within a role two nodes
    have the same name only if they have the same identifier. *)
Theorem artifact_names_do_not_collide (n n' : Node) :
  _get_deploy_iso_name n ≠ _get_boot_iso_name n'
  ∧ _get_deploy_iso_name n ≠ _get_floppy_image_name n'
  ∧ _get_boot_iso_name n ≠ _get_floppy_image_name n'
  ∧ (_get_deploy_iso_name n = _get_deploy_iso_name n' → uuid n = uuid n')
  ∧ (_get_boot_iso_name n = _get_boot_iso_name n' → uuid n = uuid n')
  ∧ (_get_floppy_image_name n = _get_floppy_image_name n' → uuid n = uuid n').
Proof. apply artifact_names_do_not_collide_aux. Qed.

(** Joining a root with a name that does not start with a separator keeps
    the name apart: two such names give the same path only if equal. *)
Lemma os_path_join_inj root a b :
  startswith_sep a = false → startswith_sep b = false →
  os_path_join root a = os_path_join root b → a = b.
Proof.
  unfold os_path_join. intros -> ->.
  destruct (String.eqb root "" || endswith_sep root); intros H.
  - by apply (inj (String.app root)) in H.
  - apply (inj (String.app root)) in H. by apply (inj (String.app "/")) in H.
Qed.

(** X2.  Under one share root the staged files of the three roles never
    overwrite one another, whatever the nodes, and two nodes stage a role
    at the same path only if they have the same identifier. *)
Theorem staged_paths_do_not_collide E (n n' : Node) :
  staged_path E (_get_deploy_iso_name n) ≠ staged_path E (_get_boot_iso_name n')
  ∧ staged_path E (_get_deploy_iso_name n)
    ≠ staged_path E (_get_floppy_image_name n')
  ∧ staged_path E (_get_boot_iso_name n)
    ≠ staged_path E (_get_floppy_image_name n')
  ∧ (staged_path E (_get_deploy_iso_name n)
     = staged_path E (_get_deploy_iso_name n') → uuid n = uuid n')
  ∧ (staged_path E (_get_boot_iso_name n)
     = staged_path E (_get_boot_iso_name n') → uuid n = uuid n')
  ∧ (staged_path E (_get_floppy_image_name n)
     = staged_path E (_get_floppy_image_name n') → uuid n = uuid n').
Proof.
  destruct (artifact_names_do_not_collide_aux n n')
    as (H1 & H2 & H3 & H4 & H5 & H6).
  unfold staged_path.
  split_and!; intros H; apply os_path_join_inj in H; try done; auto.
Qed.

(** ** Checking the configuration *)

(** X3.  [check_share_fs_mounted] decides on the share root alone and
    changes nothing: a root that is not a directory is reported as
    [InvalidParameterValue], whether or not it counts as mounted; a
    directory that is not a mount point as
    [IRMCSharedFileSystemNotMounted] carrying the root; a mounted
    directory passes. *)
Theorem check_share_fs_mounted_cases E w :
  (check_share_fs_mounted E w).2 = w
  ∧ (remote_image_share_root (CONF E) ∉ dirs (share w) →
     ∃ msg, (check_share_fs_mounted E w).1 = Raise (InvalidParameterValue msg))
  ∧ (remote_image_share_root (CONF E) ∈ dirs (share w) →
     remote_image_share_root (CONF E) ∉ mounts (share w) →
     (check_share_fs_mounted E w).1
     = Raise (IRMCSharedFileSystemNotMounted
                (remote_image_share_root (CONF E))))
  ∧ (remote_image_share_root (CONF E) ∈ dirs (share w) →
     remote_image_share_root (CONF E) ∈ mounts (share w) →
     (check_share_fs_mounted E w).1 = Ok tt).
Proof.
  unfold check_share_fs_mounted, _parse_config_option, os_path_isdir,
    os_path_ismount. unfold_monad.
  split_and!.
  - repeat case_bool_decide; done.
  - intros Hd. rewrite (bool_decide_eq_false_2 _ Hd). cbn. eauto.
  - intros Hd Hm. rewrite (bool_decide_eq_true_2 _ Hd). cbn.
    by rewrite (bool_decide_eq_false_2 _ Hm).
  - intros Hd Hm. rewrite (bool_decide_eq_true_2 _ Hd). cbn.
    by rewrite (bool_decide_eq_true_2 _ Hm).
Qed.

(** ** Parsing the deploy information *)

Lemma check_for_missing_params_singleton k v msg :
  check_for_missing_params {[ k := v ]} msg
  = if truthy v then mret tt else raise (MissingParameterValue msg).
Proof.
  unfold check_for_missing_params. destruct (truthy v) eqn:Hv.
  - rewrite bool_decide_eq_true_2; [done|]. by apply map_Forall_singleton.
  - rewrite bool_decide_eq_false_2; [done|].
    intros H%map_Forall_singleton. congruence.
Qed.


Lemma truthy_get_lookup (d : gmap string Val) k :
  truthy (dict_get d k) = true → d !! k = Some (dict_get d k).
Proof. unfold dict_get. destruct (d !! k); cbn; [done|discriminate]. Qed.


Lemma parse_driver_info_returned E w d w' :
  _parse_driver_info E w = (Ok d, w') →
  w' = w
  ∧ d = {[ "irmc_deploy_iso"
           := dict_get (driver_info (node w)) "irmc_deploy_iso" ]}
  ∧ truthy (dict_get (driver_info (node w)) "irmc_deploy_iso") = true.
Proof.
  unfold _parse_driver_info, dict_item, path_join, os_path_isfile.
  unfold_monad. rewrite check_for_missing_params_singleton.
  rewrite lookup_singleton_eq. unfold_monad.
  destruct (truthy _) eqn:Ht; cbn; [|discriminate].
  run_cases; intros; simplify_eq; done.
Qed.

Lemma parse_instance_info_returned E w d w' :
  _parse_instance_info E w = (Ok d, w') →
  w' = w
  ∧ d = if truthy (dict_get (instance_info (node w)) "irmc_boot_iso")
        then {[ "irmc_boot_iso"
                := dict_get (instance_info (node w)) "irmc_boot_iso" ]}
        else ∅.
Proof.
  unfold _parse_instance_info, dict_item, path_join, os_path_isfile.
  unfold_monad.
  destruct (truthy _) eqn:Ht; cbn; [|by intros [= <- <-]].
  rewrite (truthy_get_lookup _ _ Ht). cbn.
  run_cases; intros; simplify_eq; done.
Qed.

(** X6.  When [_parse_deploy_info] returns, it has changed nothing, and
    its answer is the image information of the node overridden by the two
    driver settings: ['irmc_deploy_iso'] is the value of [driver_info]
    and is not empty, ['irmc_boot_iso'] is the value of [instance_info]
    when that one is given and not empty, and every other key is as the
    image information has it. *)
Theorem parse_deploy_info_precedence E w di :
  (_parse_deploy_info E w).1 = Ok di →
  (_parse_deploy_info E w).2 = w
  ∧ ∃ image_info,
      get_image_instance_info (EXT E) (node w) = inr image_info
      ∧ di !! "irmc_deploy_iso"
        = Some (dict_get (driver_info (node w)) "irmc_deploy_iso")
      ∧ truthy (dict_get (driver_info (node w)) "irmc_deploy_iso") = true
      ∧ (truthy (dict_get (instance_info (node w)) "irmc_boot_iso") = true →
         di !! "irmc_boot_iso" = instance_info (node w) !! "irmc_boot_iso")
      ∧ (truthy (dict_get (instance_info (node w)) "irmc_boot_iso") = false →
         di !! "irmc_boot_iso" = image_info !! "irmc_boot_iso")
      ∧ (∀ k, k ≠ "irmc_deploy_iso" → k ≠ "irmc_boot_iso" →
           di !! k = image_info !! k).
Proof.
  intros Hdi. split; [apply parse_deploy_info_reads_only|].
  revert Hdi. unfold _parse_deploy_info.
  rewrite (bind_ok (gets node) _ w (node w) w eq_refl).
  destruct (get_image_instance_info (EXT E) (node w)) as [e|image_info];
    [by intros [=]|].
  rewrite (bind_ok (mret image_info) _ w image_info w eq_refl).
  unfold mbind at 1, M_bind at 1.
  destruct (_parse_driver_info E w) as [[d|e] w1] eqn:Hd; [|by intros [=]].
  apply parse_driver_info_returned in Hd as (-> & -> & Htd).
  unfold mbind at 1, M_bind at 1.
  destruct (_parse_instance_info E w) as [[i|e] w2] eqn:Hi; [|by intros [=]].
  apply parse_instance_info_returned in Hi as (-> & ->).
  intros [= <-]. exists image_info. split; [done|].
  unfold dict_update. rewrite (right_id_L ∅ (∪) image_info).
  destruct (truthy (dict_get (instance_info (node w)) "irmc_boot_iso")) eqn:Hti.
  - split_and!; try done.
    + rewrite lookup_union_r by by rewrite lookup_singleton_ne.
      by rewrite lookup_union_l', lookup_singleton_eq.
    + intros _. rewrite lookup_union_l', lookup_singleton_eq;
        [|by rewrite lookup_singleton_eq]. symmetry.
      by apply truthy_get_lookup.
    + intros k H1 H2. rewrite lookup_union_r by by rewrite lookup_singleton_ne.
      by rewrite lookup_union_r by by rewrite lookup_singleton_ne.
  - rewrite (left_id_L ∅ (∪)). split_and!; try done.
    + by rewrite lookup_union_l', lookup_singleton_eq.
    + intros _. by rewrite lookup_union_r by by rewrite lookup_singleton_ne.
    + intros k H1 H2.
      by rewrite lookup_union_r by by rewrite lookup_singleton_ne.
Qed.

Lemma parse_deploy_info_precedence_witness :
  (_parse_deploy_info env0 w_deploying).1 = Ok deploy_info0
  ∧ deploy_info0 !! "irmc_deploy_iso" = Some (VStr "http://img/deploy.iso")
  ∧ deploy_info0 !! "image_source" = Some (VStr "http://img/os.qcow2").
Proof.
  assert (H : (_parse_deploy_info env0 w_deploying).1 = Ok deploy_info0)
    by (vm_compute; reflexivity).
  split; [exact H|].
  destruct (parse_deploy_info_precedence env0 w_deploying deploy_info0 H)
    as (_ & image_info & Hinfo & Hd & _ & _ & _ & Hk).
  split; [exact Hd|]. reflexivity.
Defined.

(** ** Preparing the ramdisk *)





(** ** Preparing the instance *)

Lemma runs_exact {A} (m : M A) w evs (Q : A → World → Prop) :
  runs m w evs Q →
  runs m w evs (λ a w', Q a w' ∧ w' = (m w).2 ∧ (m w).1 = Ok a).
Proof.
  intros (done & Ht & Hp & Hok). exists done. split; [done|]. split; [done|].
  intros a Ha. destruct (Hok a Ha) as [-> HQ]. done.
Qed.

Lemma runs_prepare_instance_disk E w :
  (get_boot_option (EXT E) (node w) = "local"
   ∨ truthy (dict_get (driver_internal_info (node w)) "is_whole_disk_image")
     = true) →
  runs (IRMCVirtualMediaBoot.prepare_instance E) w
    (cleanup_calls E (node w) ++ [EvSetBootDevice DISK true]) (same_node w).
Proof.
  intros Hdisk. unfold IRMCVirtualMediaBoot.prepare_instance.
  eapply runs_bind; [apply runs_cleanup_vmedia_boot|].
  unfold same_node. intros [] w1 H1.
  eapply runs_bind_silent with (P := λ n w', n = node w ∧ w' = w1);
    [by apply runs_gets|].
  intros n w' [-> ->].
  assert (Hif : String.eqb (get_boot_option (EXT E) (node w)) "local"
                || truthy (dict_get (driver_internal_info (node w))
                             "is_whole_disk_image") = true).
  { destruct Hdisk as [-> | ->]; [done|apply orb_true_r]. }
  rewrite Hif.
  eapply runs_conseq; [apply runs_node_set_boot_device|].
  unfold same_node. intros [] w2 ->. done.
Qed.

Lemma runs_prepare_instance_netboot E w root_uuid di :
  get_boot_option (EXT E) (node w) ≠ "local" →
  truthy (dict_get (driver_internal_info (node w)) "is_whole_disk_image")
  = false →
  driver_internal_info (node w) !! "root_uuid_or_disk_id" = Some root_uuid →
  (_parse_deploy_info E (_cleanup_vmedia_boot E w).2).1 = Ok di →
  runs (IRMCVirtualMediaBoot.prepare_instance E) w
    (cleanup_calls E (node w)
     ++ boot_iso_staging_calls E (node w) di root_uuid
     ++ [EvNodeSave (with_boot_iso (node w) (chosen_boot_iso E (node w) di))]
     ++ attach_boot_iso_calls E (chosen_boot_iso E (node w) di))
    (λ _ w', node w' = with_boot_iso (node w) (chosen_boot_iso E (node w) di)).
Proof.
  intros Hnet Hiwdi Hroot Hdi. unfold IRMCVirtualMediaBoot.prepare_instance.
  eapply runs_bind;
    [apply runs_exact, runs_cleanup_vmedia_boot|].
  unfold same_node. intros [] w1 (H1 & Hw1 & _).
  eapply runs_bind_silent with (P := λ n w', n = node w ∧ w' = w1);
    [by apply runs_gets|].
  intros n w' [-> ->].
  assert (Hif : String.eqb (get_boot_option (EXT E) (node w)) "local"
                || truthy (dict_get (driver_internal_info (node w))
                             "is_whole_disk_image") = false).
  { rewrite Hiwdi, orb_false_r. by apply String.eqb_neq. }
  rewrite Hif. unfold dict_item. rewrite Hroot.
  eapply runs_bind_silent with (P := λ v w', v = root_uuid ∧ w' = w1);
    [by apply runs_ret|].
  intros v w' [-> ->]. rewrite <- H1.
  apply runs_configure_vmedia_boot. by rewrite Hw1.
Qed.

(** X8.  For a local boot or a whole-disk image [prepare_instance] uses no
    virtual media: after the cleanup of the ramdisk (two ejects, two
    removals) its only call sets the disk as the persistent boot device.
    Nothing is fetched, built, saved or attached, and a run that returns
    leaves the node as it was. *)
Theorem prepare_instance_local_boot E w :
  (get_boot_option (EXT E) (node w) = "local"
   ∨ truthy (dict_get (driver_internal_info (node w)) "is_whole_disk_image")
     = true) →
  ∃ done,
    trace (IRMCVirtualMediaBoot.prepare_instance E w).2 = trace w ++ done
    ∧ done `prefix_of`
        [EvScci UNMOUNT_CD; EvScci UNMOUNT_FD;
         EvUnlink (removed_path E (_get_floppy_image_name (node w)));
         EvUnlink (removed_path E (_get_deploy_iso_name (node w)));
         EvSetBootDevice DISK true]
    ∧ ((IRMCVirtualMediaBoot.prepare_instance E w).1 = Ok tt →
       done =
         [EvScci UNMOUNT_CD; EvScci UNMOUNT_FD;
          EvUnlink (removed_path E (_get_floppy_image_name (node w)));
          EvUnlink (removed_path E (_get_deploy_iso_name (node w)));
          EvSetBootDevice DISK true]
       ∧ node (IRMCVirtualMediaBoot.prepare_instance E w).2 = node w).
Proof.
  intros Hdisk.
  destruct (runs_prepare_instance_disk E w Hdisk) as (done & Ht & Hp & Hok).
  exists done. split; [done|]. split; [done|].
  intros Hr. by destruct (Hok tt Hr).
Qed.

Lemma prepare_instance_local_boot_witness :
  truthy (dict_get (driver_internal_info (node w_whole_disk))
            "is_whole_disk_image") = true
  ∧ ∃ done,
      trace (IRMCVirtualMediaBoot.prepare_instance env0 w_whole_disk).2
      = trace w_whole_disk ++ done
      ∧ done `prefix_of`
          [EvScci UNMOUNT_CD; EvScci UNMOUNT_FD;
           EvUnlink
             (removed_path env0 (_get_floppy_image_name (node w_whole_disk)));
           EvUnlink
             (removed_path env0 (_get_deploy_iso_name (node w_whole_disk)));
           EvSetBootDevice DISK true]
      ∧ ((IRMCVirtualMediaBoot.prepare_instance env0 w_whole_disk).1 = Ok tt →
         done =
           [EvScci UNMOUNT_CD; EvScci UNMOUNT_FD;
            EvUnlink
              (removed_path env0 (_get_floppy_image_name (node w_whole_disk)));
            EvUnlink
              (removed_path env0 (_get_deploy_iso_name (node w_whole_disk)));
            EvSetBootDevice DISK true]
         ∧ node (IRMCVirtualMediaBoot.prepare_instance env0 w_whole_disk).2
           = node w_whole_disk).
Proof.
  split; [reflexivity|].
  apply (prepare_instance_local_boot env0 w_whole_disk). right. reflexivity.
Defined.

(** X9.  For a network boot with a recorded root identifier,
    [prepare_instance] first cleans up the ramdisk media (two ejects, two
    removals), then stages the boot ISO for the deploy information that
    parses after that cleanup, saves its name, and attaches it: two more
    ejects, the CD inserted, the CD set as persistent boot device.  A run
    that returns has made all the calls and holds the name in the node. *)
Theorem prepare_instance_netboot_order E w root_uuid di :
  get_boot_option (EXT E) (node w) ≠ "local" →
  truthy (dict_get (driver_internal_info (node w)) "is_whole_disk_image")
  = false →
  driver_internal_info (node w) !! "root_uuid_or_disk_id" = Some root_uuid →
  (_parse_deploy_info E (_cleanup_vmedia_boot E w).2).1 = Ok di →
  ∃ done,
    trace (IRMCVirtualMediaBoot.prepare_instance E w).2 = trace w ++ done
    ∧ done `prefix_of`
        [EvScci UNMOUNT_CD; EvScci UNMOUNT_FD;
         EvUnlink (removed_path E (_get_floppy_image_name (node w)));
         EvUnlink (removed_path E (_get_deploy_iso_name (node w)))]
        ++ boot_iso_staging_calls E (node w) di root_uuid
        ++ [EvNodeSave (with_boot_iso (node w) (chosen_boot_iso E (node w) di));
            EvScci UNMOUNT_CD; EvScci UNMOUNT_FD;
            EvScci (cd_set_params E (chosen_boot_iso E (node w) di));
            EvScci MOUNT_CD;
            EvSetBootDevice CDROM true]
    ∧ ((IRMCVirtualMediaBoot.prepare_instance E w).1 = Ok tt →
       done =
         [EvScci UNMOUNT_CD; EvScci UNMOUNT_FD;
          EvUnlink (removed_path E (_get_floppy_image_name (node w)));
          EvUnlink (removed_path E (_get_deploy_iso_name (node w)))]
         ++ boot_iso_staging_calls E (node w) di root_uuid
         ++ [EvNodeSave
               (with_boot_iso (node w) (chosen_boot_iso E (node w) di));
             EvScci UNMOUNT_CD; EvScci UNMOUNT_FD;
             EvScci (cd_set_params E (chosen_boot_iso E (node w) di));
             EvScci MOUNT_CD;
             EvSetBootDevice CDROM true]
       ∧ driver_internal_info (node (IRMCVirtualMediaBoot.prepare_instance E w).2)
           !! "irmc_boot_iso"
         = Some (chosen_boot_iso E (node w) di)).
Proof.
  intros Hnet Hiwdi Hroot Hdi.
  destruct (runs_prepare_instance_netboot E w root_uuid di Hnet Hiwdi Hroot Hdi)
    as (done & Ht & Hp & Hok).
  exists done. split; [done|]. split; [done|].
  intros Hr. destruct (Hok tt Hr) as [-> ->]. split; [done|].
  unfold with_boot_iso. cbn. apply lookup_insert_eq.
Qed.

Lemma prepare_instance_netboot_order_witness :
  get_boot_option (EXT env0) (node w_deploying) ≠ "local"
  ∧ truthy (dict_get (driver_internal_info (node w_deploying))
              "is_whole_disk_image") = false
  ∧ driver_internal_info (node w_deploying) !! "root_uuid_or_disk_id"
    = Some (VStr "uuid-123")
  ∧ (_parse_deploy_info env0 (_cleanup_vmedia_boot env0 w_deploying).2).1
    = Ok deploy_info0
  ∧ ∃ done,
      trace (IRMCVirtualMediaBoot.prepare_instance env0 w_deploying).2
      = trace w_deploying ++ done
      ∧ ((IRMCVirtualMediaBoot.prepare_instance env0 w_deploying).1 = Ok tt →
         driver_internal_info
           (node (IRMCVirtualMediaBoot.prepare_instance env0 w_deploying).2)
           !! "irmc_boot_iso"
         = Some (chosen_boot_iso env0 (node w_deploying) deploy_info0)).
Proof.
  assert (H1 : get_boot_option (EXT env0) (node w_deploying) ≠ "local")
    by discriminate.
  assert (H4 : (_parse_deploy_info env0
                  (_cleanup_vmedia_boot env0 w_deploying).2).1
               = Ok deploy_info0) by (vm_compute; reflexivity).
  split; [exact H1|]. split; [reflexivity|]. split; [reflexivity|].
  split; [exact H4|].
  destruct (prepare_instance_netboot_order env0 w_deploying (VStr "uuid-123")
              deploy_info0 H1 eq_refl eq_refl H4) as (done & Ht & _ & Hok).
  exists done. split; [exact Ht|]. intros Hr. exact (proj2 (Hok Hr)).
Defined.

(** X10.  For a network boot without ['root_uuid_or_disk_id'] in
    [driver_internal_info], [prepare_instance] raises [KeyError], but only
    after the cleanup of the ramdisk media: when that cleanup returns, the
    world is the one the cleanup left, with the media ejected and the
    ramdisk artifacts unlinked. *)
Theorem prepare_instance_without_root_id E w :
  get_boot_option (EXT E) (node w) ≠ "local" →
  truthy (dict_get (driver_internal_info (node w)) "is_whole_disk_image")
  = false →
  driver_internal_info (node w) !! "root_uuid_or_disk_id" = None →
  (_cleanup_vmedia_boot E w).1 = Ok tt →
  IRMCVirtualMediaBoot.prepare_instance E w
  = (Raise (KeyError "root_uuid_or_disk_id"), (_cleanup_vmedia_boot E w).2).
Proof.
  intros Hnet Hiwdi Hroot Hclean.
  destruct (runs_cleanup_vmedia_boot E w) as (done & _ & _ & Hok).
  destruct (Hok tt Hclean) as [_ Hnode]. unfold same_node in Hnode.
  unfold IRMCVirtualMediaBoot.prepare_instance.
  destruct (_cleanup_vmedia_boot E w) as [[[]|e] w1] eqn:Hrun;
    [|discriminate Hclean].
  rewrite (bind_ok _ _ _ _ _ Hrun).
  rewrite (bind_ok (gets node) _ w1 (node w1) w1 eq_refl).
  cbn in Hnode. rewrite Hnode, Hiwdi, orb_false_r.
  apply String.eqb_neq in Hnet. rewrite Hnet.
  unfold dict_item. rewrite Hroot. done.
Qed.

Lemma prepare_instance_without_root_id_witness :
  driver_internal_info (node w_no_root_id) !! "root_uuid_or_disk_id" = None
  ∧ (_cleanup_vmedia_boot env0 w_no_root_id).1 = Ok tt
  ∧ IRMCVirtualMediaBoot.prepare_instance env0 w_no_root_id
    = (Raise (KeyError "root_uuid_or_disk_id"),
       (_cleanup_vmedia_boot env0 w_no_root_id).2).
Proof.
  split; [reflexivity|].
  assert (Hc : (_cleanup_vmedia_boot env0 w_no_root_id).1 = Ok tt)
    by (vm_compute; reflexivity).
  split; [exact Hc|].
  apply (prepare_instance_without_root_id env0 w_no_root_id);
    [discriminate|reflexivity|reflexivity|exact Hc].
Defined.

(** ** Errors of the controller *)

(** X11.  With a client for the node, each of the four media operations
    returns when the controller accepts its commands and otherwise raises
    [IRMCOperationError] under its own operation name: a refused eject is
    "Ejecting virtual cdrom" or "Ejecting virtual floppy"; an insert whose
    set-parameters command or whose mount command is refused is "Inserting
    virtual cdrom" or "Inserting virtual floppy". *)
Theorem controller_refusals_are_tagged E w iso floppy :
  irmc_client_failure (EXT E) (driver_info (node w)) = None →
  (_detach_virtual_cd E w).1
  = (if faults w (length (trace w))
     then Raise (IRMCOperationError "Ejecting virtual cdrom") else Ok tt)
  ∧ (_detach_virtual_fd E w).1
    = (if faults w (length (trace w))
       then Raise (IRMCOperationError "Ejecting virtual floppy") else Ok tt)
  ∧ (_attach_virtual_cd E iso w).1
    = (if faults w (length (trace w)) || faults w (length (trace w) + 1)
       then Raise (IRMCOperationError "Inserting virtual cdrom") else Ok tt)
  ∧ (_attach_virtual_fd E floppy w).1
    = (if faults w (length (trace w)) || faults w (length (trace w) + 1)
       then Raise (IRMCOperationError "Inserting virtual floppy") else Ok tt).
Proof.
  intros Hc.
  unfold _detach_virtual_cd, _detach_virtual_fd, _attach_virtual_cd,
    _attach_virtual_fd, get_irmc_client, irmc_client.
  unfold_monad. rewrite Hc. cbn.
  split_and!.
  - by destruct (faults w (length (trace w))).
  - by destruct (faults w (length (trace w))).
  - destruct (faults w (length (trace w))); cbn; [done|].
    rewrite length_app. cbn [length].
    by destruct (faults w (length (trace w) + 1)).
  - destruct (faults w (length (trace w))); cbn; [done|].
    rewrite length_app. cbn [length].
    by destruct (faults w (length (trace w) + 1)).
Qed.

Lemma controller_refusals_are_tagged_witness :
  irmc_client_failure (EXT env0) (driver_info (node w_first_call_refused))
  = None
  ∧ (_detach_virtual_cd env0 w_first_call_refused).1
    = Raise (IRMCOperationError "Ejecting virtual cdrom").
Proof.
  split; [reflexivity|].
  exact (proj1 (controller_refusals_are_tagged env0 w_first_call_refused
                  VNone "" eq_refl)).
Defined.

Lemma never_escapes_ret {A} e (a : A) : never_escapes e (mret a).
Proof. by intros w. Qed.

Lemma never_escapes_raise {A} e e' : e' ≠ e → never_escapes e (@raise A e').
Proof. intros Hne w. cbn. congruence. Qed.

Lemma never_escapes_gets {A} e (f : World → A) : never_escapes e (gets f).
Proof. by intros w. Qed.

Lemma never_escapes_modify e f : never_escapes e (modify f).
Proof. by intros w. Qed.

Lemma never_escapes_call e ev : never_escapes e (call ev).
Proof. by intros w. Qed.

Lemma never_escapes_bind {A B} e (m : M A) (f : A → M B) :
  never_escapes e m → (∀ a, never_escapes e (f a)) →
  never_escapes e (m ≫= f).
Proof.
  intros Hm Hf w. unfold mbind, M_bind. specialize (Hm w).
  destruct (m w) as [[a|e'] w']; cbn in *; [apply Hf|].
  intros [= ->]. by apply Hm.
Qed.

(** A handler that catches [e] stops it, whatever the body does. *)
Lemma never_escapes_caught {A} e (body : M A) handler :
  is_Some (handler e) →
  (∀ e' h, handler e' = Some h → never_escapes e h) →
  never_escapes e (try_except body handler).
Proof.
  intros [h0 Hcatch] Hh w. unfold try_except.
  destruct (body w) as [[a|e'] w']; cbn; [done|].
  destruct (handler e') as [h|] eqn:He; [by apply (Hh e' h)|].
  cbn. intros [= ->]. congruence.
Qed.

Lemma never_escapes_try {A} e (body : M A) handler :
  never_escapes e body →
  (∀ e' h, handler e' = Some h → never_escapes e h) →
  never_escapes e (try_except body handler).
Proof.
  intros Hb Hh w. unfold try_except. specialize (Hb w).
  destruct (body w) as [[a|e'] w']; cbn in *; [done|].
  destruct (handler e') as [h|] eqn:He; [by apply (Hh e' h)|exact Hb].
Qed.

Create HintDb never_escapes.

#[local] Hint Resolve never_escapes_ret never_escapes_gets
  never_escapes_modify never_escapes_call : never_escapes.

Ltac never_escapes_step :=
  match goal with
  | |- never_escapes _ (_ ≫= _) => apply never_escapes_bind; [|intros ?]
  | |- never_escapes _ (raise _) => apply never_escapes_raise; discriminate
  | |- never_escapes _ (if ?b then _ else _) => destruct b
  | |- never_escapes _ (match ?x with _ => _ end) => destruct x
  | |- never_escapes _ _ => solve [auto with never_escapes]
  end.

Ltac never_escapes_auto := repeat never_escapes_step.

(** The handlers of the driver re-raise under another exception or
    return. *)
Ltac never_escapes_handlers :=
  intros [] ? ?; simplify_eq; never_escapes_auto.

Lemma scci_stops_at_detach_virtual_cd E :
  never_escapes SCCIClientError (_detach_virtual_cd E).
Proof.
  apply never_escapes_caught; [by eexists|never_escapes_handlers].
Qed.

Lemma scci_stops_at_detach_virtual_fd E :
  never_escapes SCCIClientError (_detach_virtual_fd E).
Proof.
  apply never_escapes_caught; [by eexists|never_escapes_handlers].
Qed.

Lemma scci_stops_at_attach_virtual_cd E iso :
  never_escapes SCCIClientError (_attach_virtual_cd E iso).
Proof.
  apply never_escapes_caught; [by eexists|never_escapes_handlers].
Qed.

Lemma scci_stops_at_attach_virtual_fd E floppy :
  never_escapes SCCIClientError (_attach_virtual_fd E floppy).
Proof.
  apply never_escapes_caught; [by eexists|never_escapes_handlers].
Qed.

Lemma scci_not_from_remove_share_file E name :
  never_escapes SCCIClientError (_remove_share_file E name).
Proof.
  unfold _remove_share_file, unlink_without_raise.
  apply never_escapes_try; [|never_escapes_handlers].
  unfold os_unlink. never_escapes_auto.
Qed.

Lemma scci_not_from_prepare_floppy_image E params :
  never_escapes SCCIClientError (_prepare_floppy_image E params).
Proof.
  unfold _prepare_floppy_image, images_create_vfat_image.
  never_escapes_auto.
  apply never_escapes_try; [|never_escapes_handlers].
  unfold shutil_copyfile. never_escapes_auto.
Qed.

#[local] Hint Resolve scci_stops_at_detach_virtual_cd
  scci_stops_at_detach_virtual_fd scci_stops_at_attach_virtual_cd
  scci_stops_at_attach_virtual_fd scci_not_from_remove_share_file
  scci_not_from_prepare_floppy_image : never_escapes.

Lemma scci_not_from_setup_vmedia_for_boot E iso parameters :
  never_escapes SCCIClientError (_setup_vmedia_for_boot E iso parameters).
Proof. unfold _setup_vmedia_for_boot. never_escapes_auto. Qed.

Lemma scci_not_from_cleanup_vmedia_boot E :
  never_escapes SCCIClientError (_cleanup_vmedia_boot E).
Proof. unfold _cleanup_vmedia_boot. never_escapes_auto. Qed.

Lemma scci_not_from_node_set_boot_device d p :
  never_escapes SCCIClientError (node_set_boot_device d p).
Proof. unfold node_set_boot_device. never_escapes_auto. Qed.

Lemma scci_not_from_node_save : never_escapes SCCIClientError node_save.
Proof. unfold node_save. never_escapes_auto. Qed.

#[local] Hint Resolve scci_not_from_setup_vmedia_for_boot
  scci_not_from_cleanup_vmedia_boot scci_not_from_node_set_boot_device
  scci_not_from_node_save : never_escapes.

(** X12.  A client error of the controller never leaves the driver as
    such: [SCCIClientError] does not escape the vmedia setup, the cleanup,
    the re-attach of the boot ISO, nor [prepare_ramdisk],
    [clean_up_ramdisk] and [clean_up_instance], whatever the controller
    and the other collaborators do. *)
Theorem scci_client_error_never_escapes E :
  (∀ iso parameters,
     never_escapes SCCIClientError (_setup_vmedia_for_boot E iso parameters))
  ∧ never_escapes SCCIClientError (_cleanup_vmedia_boot E)
  ∧ never_escapes SCCIClientError (attach_boot_iso_if_needed E)
  ∧ (∀ ramdisk_params,
       never_escapes SCCIClientError
         (IRMCVirtualMediaBoot.prepare_ramdisk E ramdisk_params))
  ∧ never_escapes SCCIClientError (IRMCVirtualMediaBoot.clean_up_ramdisk E)
  ∧ never_escapes SCCIClientError (IRMCVirtualMediaBoot.clean_up_instance E).
Proof.
  split_and!.
  - intros iso parameters. auto with never_escapes.
  - auto with never_escapes.
  - unfold attach_boot_iso_if_needed, dict_item. never_escapes_auto.
  - intros params.
    unfold IRMCVirtualMediaBoot.prepare_ramdisk, _setup_deploy_iso, dict_item,
      images_fetch.
    never_escapes_auto.
  - unfold IRMCVirtualMediaBoot.clean_up_ramdisk. auto with never_escapes.
  - unfold IRMCVirtualMediaBoot.clean_up_instance. never_escapes_auto.
Qed.

(** ** What the cleanup leaves alone *)

Lemma bind_raise {A B} (m : M A) (f : A → M B) w e w' :
  m w = (Raise e, w') → (m ≫= f) w = (Raise e, w').
Proof. intros Hm. unfold mbind, M_bind. by rewrite Hm. Qed.

Lemma detach_virtual_cd_frame E w :
  node (_detach_virtual_cd E w).2 = node w
  ∧ stored (_detach_virtual_cd E w).2 = stored w
  ∧ share (_detach_virtual_cd E w).2 = share w
  ∧ faults (_detach_virtual_cd E w).2 = faults w.
Proof.
  unfold _detach_virtual_cd, get_irmc_client, irmc_client.
  unfold_monad. run_cases; done.
Qed.

Lemma detach_virtual_fd_frame E w :
  node (_detach_virtual_fd E w).2 = node w
  ∧ stored (_detach_virtual_fd E w).2 = stored w
  ∧ share (_detach_virtual_fd E w).2 = share w
  ∧ faults (_detach_virtual_fd E w).2 = faults w.
Proof.
  unfold _detach_virtual_fd, get_irmc_client, irmc_client.
  unfold_monad. run_cases; done.
Qed.

Lemma cleanup_vmedia_boot_frame E w :
  node (_cleanup_vmedia_boot E w).2 = node w
  ∧ stored (_cleanup_vmedia_boot E w).2 = stored w
  ∧ files (share (_cleanup_vmedia_boot E w).2) ⊆ files (share w)
  ∧ dirs (share (_cleanup_vmedia_boot E w).2) = dirs (share w)
  ∧ mounts (share (_cleanup_vmedia_boot E w).2) = mounts (share w)
  ∧ ((_cleanup_vmedia_boot E w).1 ≠ Ok tt →
     share (_cleanup_vmedia_boot E w).2 = share w).
Proof.
  unfold _cleanup_vmedia_boot.
  destruct (detach_virtual_cd_frame E w) as (N1 & S1 & F1 & _).
  destruct (_detach_virtual_cd E w) as [[[]|e1] w1] eqn:H1; cbn in N1, S1, F1.
  2: { rewrite (bind_raise _ _ _ _ _ H1). cbn. by rewrite N1, S1, F1. }
  rewrite (bind_ok _ _ _ _ _ H1).
  destruct (detach_virtual_fd_frame E w1) as (N2 & S2 & F2 & _).
  destruct (_detach_virtual_fd E w1) as [[[]|e2] w2] eqn:H2; cbn in N2, S2, F2.
  2: { rewrite (bind_raise _ _ _ _ _ H2). cbn.
       by rewrite N2, S2, F2, N1, S1, F1. }
  rewrite (bind_ok _ _ _ _ _ H2).
  rewrite (bind_ok (gets node) _ w2 (node w2) w2 eq_refl).
  destruct (remove_share_file_run E (_get_floppy_image_name (node w2)) w2)
    as (s3 & R3 & D3 & M3 & I3 & _).
  rewrite (bind_ok _ _ _ _ _ R3).
  set (w3 := with_share _ _).
  destruct (remove_share_file_run E (_get_deploy_iso_name (node w2)) w3)
    as (s4 & R4 & D4 & M4 & I4 & _).
  rewrite R4. subst w3. cbn in *.
  rewrite D4, D3, M4, M3, N2, N1, S2, S1, F2, F1.
  split_and!; try done.
  etrans; [exact I4|]. etrans; [exact I3|]. by rewrite F2, F1.
Qed.

(** X13.  [clean_up_ramdisk] never writes: whatever happens, the node in
    memory and the saved node are untouched, no file appears on the share,
    and directories and mount points stay.  Files are removed only once
    both ejects are accepted: when the cleanup raises, the share is
    exactly as it was. *)
Theorem clean_up_ramdisk_never_writes E w :
  node (IRMCVirtualMediaBoot.clean_up_ramdisk E w).2 = node w
  ∧ stored (IRMCVirtualMediaBoot.clean_up_ramdisk E w).2 = stored w
  ∧ files (share (IRMCVirtualMediaBoot.clean_up_ramdisk E w).2)
    ⊆ files (share w)
  ∧ dirs (share (IRMCVirtualMediaBoot.clean_up_ramdisk E w).2) = dirs (share w)
  ∧ mounts (share (IRMCVirtualMediaBoot.clean_up_ramdisk E w).2)
    = mounts (share w)
  ∧ ((IRMCVirtualMediaBoot.clean_up_ramdisk E w).1 ≠ Ok tt →
     share (IRMCVirtualMediaBoot.clean_up_ramdisk E w).2 = share w).
Proof.
  unfold IRMCVirtualMediaBoot.clean_up_ramdisk.
  apply cleanup_vmedia_boot_frame.
Qed.

(** ** Failures while preparing the boot ISO *)

(** X14.  [_prepare_boot_iso] saves a boot-ISO name or saves nothing.
    When it returns, the saved node is the node in memory and records a
    name under ['irmc_boot_iso'].  When it raises, the saved node is as it
    was; the node in memory is as it was too, unless the failure is the
    save itself. *)
Theorem prepare_boot_iso_saves_a_name_or_nothing E root_uuid w :
  ((_prepare_boot_iso E root_uuid w).1 = Ok tt →
   stored (_prepare_boot_iso E root_uuid w).2
   = node (_prepare_boot_iso E root_uuid w).2
   ∧ is_Some (driver_internal_info (node (_prepare_boot_iso E root_uuid w).2)
                !! "irmc_boot_iso"))
  ∧ (∀ e,
       (_prepare_boot_iso E root_uuid w).1 = Raise e →
       stored (_prepare_boot_iso E root_uuid w).2 = stored w
       ∧ (node (_prepare_boot_iso E root_uuid w).2 = node w
          ∨ e = CollaboratorError "node.save")).
Proof.
  destruct (_prepare_boot_iso E root_uuid w) as [r w'] eqn:Hrun.
  cbn [fst snd]. revert Hrun.
  unfold _prepare_boot_iso. unfold mbind at 1, M_bind at 1.
  pose proof (parse_deploy_info_reads_only E w) as Hw.
  destruct (_parse_deploy_info E w) as [[di|e0] w0]; cbn in Hw; subst w0.
  2: { intros [= <- <-]. split; [discriminate|]. intros e _.
       split; [done|by left]. }
  unfold images_fetch, images_get_image_properties, images_create_boot_iso,
    py_or, dict_item, node_save.
  unfold_monad.
  run_cases; cbn; intros [= <- <-];
    (split;
     [ intros H;
       first [ discriminate H
             | cbn; split; [done|rewrite lookup_insert_eq; eauto] ]
     | intros e H;
       first [ discriminate H
             | simplify_eq; cbn; split;
               [done|first [ by left | by right ]] ] ]).
Qed.

(** ** Staging the floppy image *)



(** ** Validation *)

Lemma check_share_fs_mounted_reads_only E w :
  (check_share_fs_mounted E w).2 = w.
Proof.
  unfold check_share_fs_mounted, _parse_config_option, os_path_isdir,
    os_path_ismount. unfold_monad. repeat case_bool_decide; done.
Qed.

Lemma check_share_fs_mounted_passes E w :
  remote_image_share_root (CONF E) ∈ dirs (share w) →
  remote_image_share_root (CONF E) ∈ mounts (share w) →
  check_share_fs_mounted E w = (Ok tt, w).
Proof.
  intros Hd Hm.
  unfold check_share_fs_mounted, _parse_config_option, os_path_isdir,
    os_path_ismount. unfold_monad.
  rewrite (bool_decide_eq_true_2 _ Hd). cbn.
  by rewrite (bool_decide_eq_true_2 _ Hm).
Qed.

(** X16.  [validate] only checks: in every case it leaves the node, the
    saved node, the share and the controller as they were.  On a mounted
    share and for deploy information that parses, its one call validates
    the image properties it selects: none for a whole-disk image, else
    [kernel_id] and [ramdisk_id] for a Glance image and [kernel] and
    [ramdisk] for any other; without an image source it raises
    [KeyError] and calls nobody. *)
Theorem validate_only_checks E w :
  node (IRMCVirtualMediaBoot.validate E w).2 = node w
  ∧ stored (IRMCVirtualMediaBoot.validate E w).2 = stored w
  ∧ share (IRMCVirtualMediaBoot.validate E w).2 = share w
  ∧ irmc (IRMCVirtualMediaBoot.validate E w).2 = irmc w
  ∧ (∀ di,
       remote_image_share_root (CONF E) ∈ dirs (share w) →
       remote_image_share_root (CONF E) ∈ mounts (share w) →
       (_parse_deploy_info E w).1 = Ok di →
       (truthy (dict_get (driver_internal_info (node w)) "is_whole_disk_image")
        = true →
        trace (IRMCVirtualMediaBoot.validate E w).2
        = trace w ++ [EvValidateImageProperties []])
       ∧ (truthy (dict_get (driver_internal_info (node w))
                    "is_whole_disk_image") = false →
          (∀ src, di !! "image_source" = Some src →
             trace (IRMCVirtualMediaBoot.validate E w).2
             = trace w
               ++ [EvValidateImageProperties
                     (if is_glance_image (EXT E) src
                      then ["kernel_id"; "ramdisk_id"]
                      else ["kernel"; "ramdisk"])])
          ∧ (di !! "image_source" = None →
             IRMCVirtualMediaBoot.validate E w
             = (Raise (KeyError "image_source"), w)))).
Proof.
  assert (Hframe :
    ∀ r w', IRMCVirtualMediaBoot.validate E w = (r, w') →
            node w' = node w ∧ stored w' = stored w
            ∧ share w' = share w ∧ irmc w' = irmc w).
  { intros r w'. unfold IRMCVirtualMediaBoot.validate.
    unfold mbind at 1, M_bind at 1.
    pose proof (check_share_fs_mounted_reads_only E w) as Hc.
    destruct (check_share_fs_mounted E w) as [[[]|e] w0]; cbn in Hc; subst w0;
      [|by intros [= <- <-]].
    unfold mbind at 1, M_bind at 1.
    pose proof (parse_deploy_info_reads_only E w) as Hp.
    destruct (_parse_deploy_info E w) as [[di|e] w0]; cbn in Hp; subst w0;
      [|by intros [= <- <-]].
    unfold validate_image_properties, dict_item. unfold_monad.
    run_cases; intros [= <- <-]; done. }
  destruct (IRMCVirtualMediaBoot.validate E w) as [r w'] eqn:Hrun.
  destruct (Hframe r w' eq_refl) as (Hn & Hs & Hsh & Hi).
  cbn [fst snd]. split; [done|]. split; [done|]. split; [done|].
  split; [done|].
  intros di Hd Hm Hdi. revert Hrun.
  unfold IRMCVirtualMediaBoot.validate.
  rewrite (bind_ok _ _ _ _ _ (check_share_fs_mounted_passes E w Hd Hm)).
  pose proof (parse_deploy_info_reads_only E w) as Hp.
  destruct (_parse_deploy_info E w) as [[di'|e] w0] eqn:Hparse;
    cbn in Hp, Hdi; subst w0; [|discriminate Hdi].
  injection Hdi as ->.
  rewrite (bind_ok _ _ _ _ _ Hparse).
  rewrite (bind_ok (gets node) _ w (node w) w eq_refl).
  unfold validate_image_properties, dict_item. unfold_monad.
  destruct (truthy (dict_get (driver_internal_info (node w))
                      "is_whole_disk_image")); cbn.
  - intros Hrun. split; [|done]. intros _.
    destruct (faults w (length (trace w))); by injection Hrun as <- <-.
  - intros Hrun. split; [done|]. intros _. split.
    + intros src Hsrc. rewrite Hsrc in Hrun. cbn in Hrun.
      destruct (is_glance_image (EXT E) src); cbn in Hrun;
        destruct (faults w (length (trace w))); by injection Hrun as <- <-.
    + intros Hnone. rewrite Hnone in Hrun. cbn in Hrun. by rewrite Hrun.
Qed.

(** ** The instance cleanup under failures *)

Lemma node_save_refused_run w :
  faults w (length (trace w)) = true →
  node_save w
  = (Raise (CollaboratorError "node.save"),
     with_trace (trace w ++ [EvNodeSave (node w)]) w).
Proof. intros Hf. unfold node_save. unfold_monad. by rewrite Hf. Qed.

(** X17.  [clean_up_instance] forgets the boot ISO before anything can
    fail: in every case the node in memory ends without ['irmc_boot_iso']
    and ['root_uuid_or_disk_id'].  When the node store refuses the save,
    the call raises with the saved node unchanged and the media not
    ejected; when it accepts, the saved node has lost the two fields
    whatever the ejects that follow do. *)
Theorem clean_up_instance_forgets_first E w :
  node (IRMCVirtualMediaBoot.clean_up_instance E w).2 = cleared (node w)
  ∧ (faults w (length (trace w) + 1) = true →
     (IRMCVirtualMediaBoot.clean_up_instance E w).1
     = Raise (CollaboratorError "node.save")
     ∧ stored (IRMCVirtualMediaBoot.clean_up_instance E w).2 = stored w
     ∧ irmc (IRMCVirtualMediaBoot.clean_up_instance E w).2 = irmc w
     ∧ trace (IRMCVirtualMediaBoot.clean_up_instance E w).2
       = trace w
         ++ [EvUnlink (removed_path E (_get_boot_iso_name (node w)));
             EvNodeSave (cleared (node w))])
  ∧ (faults w (length (trace w) + 1) = false →
     stored (IRMCVirtualMediaBoot.clean_up_instance E w).2
     = cleared (node w)).
Proof.
  destruct (clean_up_instance_after_removal E w) as (s0 & -> & _).
  set (wa := {| node := cleared (node w); share := s0 |}).
  assert (La : length (trace wa) = length (trace w) + 1).
  { subst wa. cbn. by rewrite length_app. }
  destruct (faults w (length (trace w) + 1)) eqn:F1.
  - rewrite (bind_raise _ _ _ _ _ (node_save_refused_run wa
               ltac:(rewrite La; exact F1))).
    subst wa. cbn. split; [done|]. split; [|done]. intros _.
    split_and!; try done. by rewrite <- app_assoc.
  - rewrite (bind_ok _ _ _ _ _ (node_save_accepted wa
               ltac:(rewrite La; exact F1))).
    set (wb := with_stored _ _).
    destruct (cleanup_vmedia_boot_frame E wb) as (Hn & Hs & _).
    rewrite Hn, Hs. subst wb wa. cbn. done.
Qed.

Lemma clean_up_instance_forgets_first_witness :
  faults w_instance_save_then_refusal
    (length (trace w_instance_save_then_refusal) + 1) = false
  ∧ (IRMCVirtualMediaBoot.clean_up_instance env0
       w_instance_save_then_refusal).1
    = Raise (IRMCOperationError "Ejecting virtual cdrom")
  ∧ stored
      (IRMCVirtualMediaBoot.clean_up_instance env0
         w_instance_save_then_refusal).2
    = cleared (node w_instance_save_then_refusal).
Proof.
  split; [reflexivity|]. split; [vm_compute; reflexivity|].
  apply (proj2 (proj2 (clean_up_instance_forgets_first env0
                         w_instance_save_then_refusal))).
  reflexivity.
Defined.

(** ** Re-attaching touches the controller only *)

(** X18.  [attach_boot_iso_if_needed] works on the controller alone: in
    every case, returning or raising, the node in memory, the saved node
    and the share are as they were. *)
Theorem attach_boot_iso_if_needed_touches_controller_only E w :
  node (attach_boot_iso_if_needed E w).2 = node w
  ∧ stored (attach_boot_iso_if_needed E w).2 = stored w
  ∧ share (attach_boot_iso_if_needed E w).2 = share w.
Proof.
  unfold attach_boot_iso_if_needed, _setup_vmedia_for_boot,
    _detach_virtual_cd, _detach_virtual_fd, _attach_virtual_cd,
    get_irmc_client, irmc_client, node_set_boot_device, dict_item.
  unfold_monad. run_cases; done.
Qed.

(** ** The properties above, on node N1 *)

Lemma check_share_fs_mounted_cases_witness :
  (remote_image_share_root (CONF env0) ∈ dirs (share w_unmounted))
  ∧ (remote_image_share_root (CONF env0) ∉ mounts (share w_unmounted))
  ∧ (check_share_fs_mounted env0 w_unmounted).1
    = Raise (IRMCSharedFileSystemNotMounted "/remote_image_share_root")
  ∧ (remote_image_share_root (CONF env0) ∈ mounts (share w_deploying))
  ∧ (check_share_fs_mounted env0 w_deploying).1 = Ok tt.
Proof.
  assert (Hd : remote_image_share_root (CONF env0) ∈ dirs (share w_unmounted)).
  { apply (bool_decide_unpack _). vm_compute. exact I. }
  assert (Hn : remote_image_share_root (CONF env0) ∉ mounts (share w_unmounted)).
  { apply (bool_decide_unpack _). vm_compute. exact I. }
  assert (Hd' : remote_image_share_root (CONF env0) ∈ dirs (share w_deploying)).
  { apply (bool_decide_unpack _). vm_compute. exact I. }
  assert (Hm' : remote_image_share_root (CONF env0)
                ∈ mounts (share w_deploying)).
  { apply (bool_decide_unpack _). vm_compute. exact I. }
  destruct (check_share_fs_mounted_cases env0 w_unmounted) as (_ & _ & H1 & _).
  destruct (check_share_fs_mounted_cases env0 w_deploying) as (_ & _ & _ & H2).
  split; [exact Hd|]. split; [exact Hn|]. split; [exact (H1 Hd Hn)|].
  split; [exact Hm'|]. exact (H2 Hd' Hm').
Defined.



Lemma prepare_boot_iso_saves_a_name_or_nothing_witness :
  ((_prepare_boot_iso env0 (VStr "uuid-123") w_deploying).1 = Ok tt
   ∧ stored (_prepare_boot_iso env0 (VStr "uuid-123") w_deploying).2
     = node (_prepare_boot_iso env0 (VStr "uuid-123") w_deploying).2)
  ∧ ((_prepare_boot_iso env0 (VStr "uuid-123") w_first_call_refused).1
     = Raise (CollaboratorError "images.get_image_properties")
     ∧ stored (_prepare_boot_iso env0 (VStr "uuid-123") w_first_call_refused).2
       = stored w_first_call_refused).
Proof.
  assert (H1 : (_prepare_boot_iso env0 (VStr "uuid-123") w_deploying).1
               = Ok tt) by (vm_compute; reflexivity).
  assert (H2 : (_prepare_boot_iso env0 (VStr "uuid-123")
                  w_first_call_refused).1
               = Raise (CollaboratorError "images.get_image_properties"))
    by (vm_compute; reflexivity).
  split.
  - split; [exact H1|].
    exact (proj1 (proj1 (prepare_boot_iso_saves_a_name_or_nothing env0
                           (VStr "uuid-123") w_deploying) H1)).
  - split; [exact H2|].
    exact (proj1 (proj2 (prepare_boot_iso_saves_a_name_or_nothing env0
                           (VStr "uuid-123") w_first_call_refused) _ H2)).
Defined.

Lemma validate_only_checks_witness :
  (remote_image_share_root (CONF env0) ∈ dirs (share w_deploying))
  ∧ (remote_image_share_root (CONF env0) ∈ mounts (share w_deploying))
  ∧ (_parse_deploy_info env0 w_deploying).1 = Ok deploy_info0
  ∧ trace (IRMCVirtualMediaBoot.validate env0 w_deploying).2
    = trace w_deploying ++ [EvValidateImageProperties ["kernel"; "ramdisk"]].
Proof.
  assert (Hd : remote_image_share_root (CONF env0) ∈ dirs (share w_deploying)).
  { apply (bool_decide_unpack _). vm_compute. exact I. }
  assert (Hm : remote_image_share_root (CONF env0)
               ∈ mounts (share w_deploying)).
  { apply (bool_decide_unpack _). vm_compute. exact I. }
  assert (Hp : (_parse_deploy_info env0 w_deploying).1 = Ok deploy_info0)
    by (vm_compute; reflexivity).
  split; [exact Hd|]. split; [exact Hm|]. split; [exact Hp|].
  destruct (validate_only_checks env0 w_deploying) as (_ & _ & _ & _ & H).
  destruct (H deploy_info0 Hd Hm Hp) as (_ & Hnet).
  destruct (Hnet eq_refl) as (Hsrc & _).
  exact (Hsrc (VStr "http://img/os.qcow2") eq_refl).
Defined.
